(** * Typesense server bootstrap: a shallow embedding of
      [src/typesense_server_utils.cpp]

    The file follows the C++ translation unit top to bottom: the process-wide
    quit flag and its interrupt handler, the file helpers, the private-address
    heuristic and the interface scan, the peering bootstrap with its
    maintenance loop, and [run_server].  Calls into other translation units
    (brpc, braft, the HTTP server, the stores) are recorded as events of a
    trace; what they return is read from a [World]. *)

From Stdlib Require Import ZArith List String Ascii Bool Lia.
Import ListNotations.

Local Open Scope string_scope.
Local Open Scope Z_scope.

Set Implicit Arguments.

(* ================================================================== *)
(** ** Values shared with the rest of the code base *)

(** [Option<T>] of the code base: a value, or an error code with a
    message. *)
Inductive Option (T : Type) : Type :=
| Ok (value : T)
| Error (code : Z) (msg : string).

Arguments Ok {T} value.
Arguments Error {T} code msg.

Definition ok {T} (o : Option T) : bool :=
  match o with Ok _ => true | Error _ _ => false end.

(** [std::string::empty]. *)
Definition empty (s : string) : bool :=
  match s with EmptyString => true | String _ _ => false end.

(** What the file system answers to the three calls this file makes:
    [file_exists], [directory_exists] (both of [file_utils.h]) and reading
    an [std::ifstream] opened on a path to its end. *)
Record FileSystem : Type := {
  file_exists : string -> bool;
  directory_exists : string -> bool;
  read_stream : string -> string
}.

(** Unsigned wrap-around of the fixed-width integer types. *)
Definition uint8 (z : Z) : Z := z mod 2 ^ 8.
Definition uint32 (z : Z) : Z := z mod 2 ^ 32.
Definition size_t (z : Z) : Z := z mod 2 ^ 64.

(* ================================================================== *)
(** ** File helpers (lines 52-62 and 150-169) *)

Definition fetch_file_contents (fs : FileSystem) (file_path : string)
  : Option string :=
  if negb (file_exists fs file_path) then
    Error 404 ("File does not exist at: " ++ file_path)
  else
    Ok (read_stream fs file_path).

Definition fetch_nodes_config (fs : FileSystem) (path_to_nodes : string)
  : Option string :=
  if negb (empty path_to_nodes) then
    match fetch_file_contents fs path_to_nodes with
    | Error _ err =>
        Error 500
          ("Error reading file containing nodes configuration: " ++ err)
    | Ok nodes_config =>
        if empty nodes_config then
          Error 500 "File containing nodes configuration is empty."
        else
          Ok nodes_config
    end
  else
    Ok "".

(* ================================================================== *)
(** ** Private-range heuristic (lines 171-192) *)

Definition is_private_ip (ip : Z) : bool :=
  let b1 := uint8 (Z.shiftr ip 24) in
  let b2 := uint8 (Z.land (Z.shiftr ip 16) 255) in
  if b1 =? 10 then true
  else if (b1 =? 172) && (16 <=? b2) && (b2 <=? 31) then true
  else if (b1 =? 192) && (b2 =? 168) then true
  else false.

(* ================================================================== *)
(** ** Traces *)

Inductive severity : Type := INFO | WARNING | ERROR.

(** Operands streamed into a log line. *)
Inductive piece : Type :=
| Str (s : string)
| Num (n : Z).

Inductive ThreadPoolId : Type := app_thread_pool | server_thread_pool.
Inductive StoreId : Type := store | meta_store.
Inductive ThreadId : Type := raft_thread | batch_indexing_thread.
Inductive Message : Type :=
| STREAM_RESPONSE_MESSAGE
| REQUEST_PROCEED_MESSAGE
| DEFER_PROCESSING_MESSAGE.

(** [butil::EndPoint]: address ([s_addr], network byte order) and port. *)
Record EndPoint : Type := { ip : Z; port : Z }.

(** One constructor per call that leaves this translation unit. *)
Inductive event : Type :=
| LOG (sev : severity) (msg : list piece)
| cerr (msg : list piece)
| cout (msg : list piece)
| InitGoogleLogging (name : string)
| FLAGS_logtostderr (b : bool)
| FLAGS_logbuflevel (n : Z)
| FLAGS_timestamp_in_logfile_name (b : bool)
| SetLogDestination (sev : severity) (path : string)
| SetLogDestination_FATAL (path : string)
| SetLogSymlink (sev : severity) (name : string)
| mallctl_background_thread
| ThreadPool_ctor (p : ThreadPoolId) (num_threads : Z)
| Store_ctor (s : StoreId) (dir : string)
| curl_global_init
| HttpClient_init (api_key : string)
| HttpServer_ctor (api_address : string) (api_port : Z)
    (ssl_cert ssl_cert_key : string) (ssl_refresh_ms : Z)
    (enable_cors : bool) (cors_domains : string)
| HttpServer_set_auth_handler
| HttpServer_on (m : Message)
| BatchedIndexer_ctor (num_threads : Z)
| CollectionManager_init (api_key : string)
| ReplicationState_ctor (ssl_enabled : bool)
    (num_collections_parallel_load num_documents_parallel_load : Z)
| thread_ctor (t : ThreadId)
| thread_join (t : ThreadId)
| master_server_routes
| HttpServer_run
| store_quit_raft_service (b : bool)
| BatchedIndexer_dtor
| curl_global_cleanup
| HttpServer_dtor
| CollectionManager_dispose
| braft_add_service (e : EndPoint)
| raft_server_Start (e : EndPoint)
| ReplicationState_start (e : EndPoint) (api_port : Z)
    (election_timeout_ms : Z) (snapshot_interval_seconds : Z)
    (state_dir : string) (nodes : string)
| ReplicationState_refresh_nodes (nodes_config : string)
| ReplicationState_refresh_catchup_status (log_msg : bool)
| ReplicationState_do_snapshot
| sleep (seconds : Z)
| ReplicationState_shutdown
| raft_server_Stop
| raft_server_Join
| BatchedIndexer_stop
| ThreadPool_shutdown (p : ThreadPoolId)
| HttpServer_stop.

(** How a computation ends: it returns, it calls [exit], or the loop it
    runs has not finished within the iterations granted to it. *)
Inductive outcome (A : Type) : Type :=
| Done (a : A)
| Exit (status : Z)
| Spin.

Arguments Done {A} a.
Arguments Exit {A} status.
Arguments Spin {A}.

(** The events of a computation, in program order, and how it ends. *)
Definition M (A : Type) : Type := (list event * outcome A)%type.

Definition ret {A} (a : A) : M A := ([], Done a).

Definition bind {A B} (m : M A) (k : A -> M B) : M B :=
  match m with
  | (t, Done a) => let (t', r) := k a in ((t ++ t')%list, r)
  | (t, Exit s) => (t, Exit s)
  | (t, Spin) => (t, Spin)
  end.

Definition emit (e : event) : M unit := ([e], Done tt).
Definition exit {A} (status : Z) : M A := ([], Exit status).
Definition when (b : bool) (m : M unit) : M unit := if b then m else ret tt.

Notation "x <- m ;; k" := (bind m (fun x => k))
  (at level 61, m at next level, right associativity).
Notation "m ;; k" := (bind m (fun _ => k))
  (at level 61, right associativity).

Definition trace_of {A} (m : M A) : list event := fst m.
Definition outcome_of {A} (m : M A) : outcome A := snd m.

(* ================================================================== *)
(** ** The quit flag and the interrupt handler (lines 26 and 46-50) *)

Inductive disposition : Type := SIG_HANDLER | SIG_IGN.

(** [quit_raft_service] together with the disposition of each signal
    number. *)
Record SignalState : Type := {
  quit_raft_service : bool;
  sigaction : Z -> disposition
}.

Definition catch_interrupt (sig : Z) (st : SignalState)
  : list event * SignalState :=
  ([LOG INFO [Str "Stopping Typesense server..."]],
   {| quit_raft_service := true;
      sigaction := fun s => if s =? sig then SIG_IGN else sigaction st s |}).

(** The assignments [quit_raft_service = b] of [run_server]: [false] at
    line 368, [true] at line 491. *)
Definition store_quit (b : bool) (st : SignalState) : SignalState :=
  {| quit_raft_service := b; sigaction := sigaction st |}.

(** What writes the flag while [run_server] runs, besides its own store
    at line 368: a signal whose disposition is still the handler, and
    line 491 after the API loop has returned. *)
Inductive trigger : Type :=
| Signal (sig : Z)
| ApiLoopExit.

(** Delivery of one trigger: the events it causes and the state it
    leaves.  A signal runs [catch_interrupt] only while its disposition
    is the handler. *)
Definition deliver (st : SignalState) (t : trigger)
  : list event * SignalState :=
  match t with
  | Signal sig =>
      match sigaction st sig with
      | SIG_HANDLER => catch_interrupt sig st
      | SIG_IGN => ([], st)
      end
  | ApiLoopExit => ([], store_quit true st)
  end.

Definition fire (st : SignalState) (t : trigger) : SignalState :=
  snd (deliver st t).

(* ================================================================== *)
(** ** Configuration, library calls and the outside world *)

(** The getters of [Config] this file reads ([max-memory-ratio], a float
    handed through to the collection manager, is left out). *)
Record Config : Type := {
  get_log_dir : string;
  get_data_dir : string;
  get_master : string;
  get_search_only_api_key : string;
  get_api_key : string;
  get_api_address : string;
  get_api_port : Z;
  get_ssl_cert : string;
  get_ssl_cert_key : string;
  get_ssl_refresh_interval_seconds : Z;
  get_enable_cors : bool;
  get_cors_domains : string;
  get_thread_pool_size : Z;
  get_num_collections_parallel_load : Z;
  get_num_documents_parallel_load : Z;
  get_nodes : string;
  get_peering_address : string;
  get_peering_port : Z;
  get_peering_subnet : string;
  get_snapshot_interval_seconds : Z
}.

Record sockaddr : Type := { sa_family : Z; sin_addr : Z }.
Record ifaddrs : Type := { ifa_name : string; ifa_addr : option sockaddr }.

Definition AF_INET : Z := 2.

(** Pure library functions whose code is not part of this file. *)
Class Lib : Type := {
  (** [StringUtils::split(s, out, delim)]: the parts written to [out]. *)
  StringUtils_split : string -> string -> list string;
  StringUtils_is_uint32_t : string -> bool;
  std_stoll : string -> Z;
  (** [butil::str2ip]: [Some s_addr] when it returns 0. *)
  butil_str2ip : string -> option Z;
  ntohl : Z -> Z;
  inet_ntoa : Z -> string;
  (** [ReplicationState::to_nodes_config]. *)
  to_nodes_config : EndPoint -> Z -> string -> string
}.

(** What the environment answers during one run of the process.  Time in
    the maintenance loop is counted in evaluations of the loop condition:
    [IsAskedToQuit k], [schedule k] and [fs_at k] are what the [k]-th
    evaluation (from 0) and the iteration that follows it see. *)
Record World : Type := {
  mallctl_linked : bool;
  hardware_concurrency : Z;
  boot_fs : FileSystem;
  getifaddrs : list ifaddrs;
  add_service_rc : Z;
  Start_rc : Z;
  ReplicationState_start_rc : Z;
  IsAskedToQuit : nat -> bool;
  (** dispositions installed by the caller of [run_server] *)
  installed : Z -> disposition;
  (** signals delivered after that and before [run_server] reaches
      line 368 *)
  early_signals : list Z;
  (** triggers that fire after evaluation [k-1] and before evaluation [k] *)
  schedule : nat -> list trigger;
  fs_at : nat -> FileSystem;
  HttpServer_run_rc : Z
}.

(** Line 26: the flag has static storage and starts out false. *)
Definition process_start (w : World) : SignalState :=
  {| quit_raft_service := false; sigaction := installed w |}.

(** The state [run_server] finds when it reaches line 368. *)
Definition signals_before_run_server (w : World) : SignalState :=
  fold_left fire (map Signal (early_signals w)) (process_start w).

(** Line 368: [quit_raft_service = false]. *)
Definition initial_signals (w : World) : SignalState :=
  store_quit false (signals_before_run_server w).

Definition triggers_upto (w : World) (k : nat) : list trigger :=
  flat_map (schedule w) (seq 0 (S k)).

Definition signals_at (w : World) (k : nat) : SignalState :=
  fold_left fire (triggers_upto w k) (initial_signals w).

(** [quit_raft_service.load()] in the [k]-th evaluation of the loop
    condition. *)
Definition quit_raft_service_load (w : World) (k : nat) : bool :=
  quit_raft_service (signals_at w k).

(** Lines 37-44. *)
Definition using_jemalloc (w : World) : bool := mallctl_linked w.

(* ================================================================== *)
(** ** Logger set-up (lines 111-148) *)

Definition init_root_logger (fs : FileSystem) (config : Config) : M Z :=
  emit (InitGoogleLogging "typesense") ;;
  let log_dir := get_log_dir config in
  (if empty log_dir then
     emit (FLAGS_logtostderr true) ;;
     ret 0
   else
     if negb (directory_exists fs log_dir) then
       emit (cerr [Str "Typesense failed to start. "; Str "Log directory ";
                   Str log_dir; Str " does not exist."]) ;;
       ret 1
     else
       emit (FLAGS_logbuflevel (-1)) ;;
       emit (FLAGS_timestamp_in_logfile_name false) ;;
       let log_path := log_dir ++ "/" ++ "typesense.log" in
       emit (SetLogDestination INFO log_path) ;;
       emit (SetLogSymlink INFO "") ;;
       emit (SetLogDestination WARNING "") ;;
       emit (SetLogDestination ERROR "") ;;
       emit (SetLogDestination_FATAL "") ;;
       emit (cout [Str "Log directory is configured as: "; Str log_dir]) ;;
       ret 0).

Section WithLib.

Context {lib : Lib}.

(* ================================================================== *)
(** ** Internal address (lines 194-242) *)

(** [x << n] on a 32-bit unsigned.  C++ leaves the shift undefined for
    [n >= 32]; the statements below only use it for [n < 32]. *)
Definition shl32 (x n : Z) : Z := uint32 (Z.shiftl x n).

(** Lines 198-213: [netip] and [netbits] after parsing [subnet_cidr]. *)
Definition parse_subnet (subnet_cidr : string) : Z * Z :=
  if negb (empty subnet_cidr) then
    let subnet_parts := StringUtils_split subnet_cidr "/" in
    if (List.length subnet_parts =? 2)%nat then
      match butil_str2ip (nth 0 subnet_parts "") with
      | Some subnet_addr =>
          (subnet_addr,
           if StringUtils_is_uint32_t (nth 1 subnet_parts "") then
             uint32 (std_stoll (nth 1 subnet_parts ""))
           else 0)
      | None => (0, 0)
      end
    else (0, 0)
  else (0, 0).

(** Line 225-226: the subnet test on one interface address. *)
Definition subnet_mask (netbits : Z) : Z :=
  shl32 4294967295 (uint32 (32 - netbits)).

Definition subnet_mismatch (netip netbits ipaddr : Z) : bool :=
  let mask := subnet_mask netbits in
  negb (Z.land (ntohl netip) mask =? Z.land (ntohl ipaddr) mask).

(** Lines 219-236: the walk over the interface list; [Some ipaddr] is the
    address handed to [inet_ntoa], [None] falls out of the loop. *)
Fixpoint scan_interfaces (netip netbits : Z) (ifap : list ifaddrs)
  : M (option Z) :=
  match ifap with
  | [] => ret None
  | ifa :: ifa_next =>
      match ifa_addr ifa with
      | Some sa =>
          if sa_family sa =? AF_INET then
            let ipaddr := sin_addr sa in
            if is_private_ip (ntohl ipaddr) then
              if negb (netip =? 0) && negb (netbits =? 0) then
                if subnet_mismatch netip netbits ipaddr then
                  emit (LOG INFO [Str "Skipping interface "; Str (ifa_name ifa);
                                  Str " as it does not match peering subnet."]) ;;
                  scan_interfaces netip netbits ifa_next
                else ret (Some ipaddr)
              else ret (Some ipaddr)
            else scan_interfaces netip netbits ifa_next
          else scan_interfaces netip netbits ifa_next
      | None => scan_interfaces netip netbits ifa_next
      end
  end.

Definition get_internal_ip (ifap : list ifaddrs) (subnet_cidr : string)
  : M string :=
  let '(netip, netbits) := parse_subnet subnet_cidr in
  when (negb (netip =? 0) && negb (netbits =? 0))
    (emit (LOG INFO [Str "Using subnet ip: "; Num netip;
                     Str ", bits: "; Num netbits])) ;;
  found <- scan_interfaces netip netbits ifap ;;
  match found with
  | Some ipaddr => ret (inet_ntoa ipaddr)
  | None =>
      emit (LOG WARNING
        [Str "Found no matching interfaces, using loopback address as internal IP."]) ;;
      ret "127.0.0.1"
  end.

(* ================================================================== *)
(** ** Peering bootstrap and maintenance loop (lines 244-347) *)

Variable w : World.

(** How one pass over the loop body ends: at its last statement, or
    early through [continue]. *)
Inductive flow : Type := Fallthrough | Continue.

(** Lines 307-317. *)
Definition refresh_membership (fs : FileSystem) (peering_endpoint : EndPoint)
    (api_port : Z) (path_to_nodes : string) (raft_counter : Z) : M flow :=
  if raft_counter mod 10 =? 0 then
    match fetch_nodes_config fs path_to_nodes with
    | Error _ err =>
        emit (LOG WARNING
          [Str "Error while refreshing peer configuration: "; Str err]) ;;
        ret Continue
    | Ok refreshed_nodes =>
        let nodes_config :=
          to_nodes_config peering_endpoint api_port refreshed_nodes in
        emit (ReplicationState_refresh_nodes nodes_config) ;;
        ret Fallthrough
    end
  else ret Fallthrough.

(** Lines 306-330: one pass over the loop body; the result is
    [raft_counter] when control is back at the loop condition. *)
Definition loop_body (fs : FileSystem) (peering_endpoint : EndPoint)
    (api_port : Z) (path_to_nodes : string) (raft_counter : Z) : M Z :=
  f <- refresh_membership fs peering_endpoint api_port path_to_nodes
         raft_counter ;;
  match f with
  | Continue => ret raft_counter
  | Fallthrough =>
      when (raft_counter mod 3 =? 0)
        (let log_msg := (raft_counter mod 9 =? 0) in
         emit (ReplicationState_refresh_catchup_status log_msg)) ;;
      when (raft_counter mod 60 =? 0)
        (emit ReplicationState_do_snapshot) ;;
      emit (sleep 1) ;;
      ret (size_t (raft_counter + 1))
  end.

(** Line 305. *)
Definition loop_condition (k : nat) : bool :=
  negb (IsAskedToQuit w k) && negb (quit_raft_service_load w k).

(** Lines 304-331.  [k] counts evaluations of the loop condition, [fuel]
    bounds how many more of them are followed; the result is the final
    [raft_counter]. *)
Fixpoint maintenance_loop (fuel : nat) (peering_endpoint : EndPoint)
    (api_port : Z) (path_to_nodes : string) (k : nat) (raft_counter : Z)
  : M Z :=
  match fuel with
  | O => ([], Spin)
  | S fuel' =>
      if loop_condition k then
        c <- loop_body (fs_at w k) peering_endpoint api_port path_to_nodes
               raft_counter ;;
        maintenance_loop fuel' peering_endpoint api_port path_to_nodes
          (S k) c
      else ret raft_counter
  end.

(** Lines 259-267: [Some peering_ip] when [ip_conv_status] is 0. *)
Definition resolve_peering_ip (peering_address peering_subnet : string)
  : M (option Z) :=
  if negb (empty peering_address) then
    ret (butil_str2ip peering_address)
  else
    internal_ip <- get_internal_ip (getifaddrs w) peering_subnet ;;
    ret (butil_str2ip internal_ip).

Definition start_raft_server (state_dir path_to_nodes peering_address : string)
    (peering_port : Z) (peering_subnet : string)
    (api_port snapshot_interval_seconds : Z) (fuel : nat) : M Z :=
  when (empty path_to_nodes)
    (emit (LOG INFO
      [Str "Since no --nodes argument is provided, starting a single node Typesense cluster."])) ;;
  match fetch_nodes_config (boot_fs w) path_to_nodes with
  | Error _ err =>
      emit (LOG ERROR [Str err]) ;;
      exit (-1)
  | Ok nodes =>
      conv <- resolve_peering_ip peering_address peering_subnet ;;
      match conv with
      | None =>
          emit (LOG ERROR [Str "Failed to parse peering address `";
                           Str peering_address; Str "`"]) ;;
          ret (-1)
      | Some peering_ip =>
          let peering_endpoint := {| ip := peering_ip; port := peering_port |} in
          emit (braft_add_service peering_endpoint) ;;
          if negb (add_service_rc w =? 0) then
            emit (LOG ERROR [Str "Failed to add peering service"]) ;;
            exit (-1)
          else
          emit (raft_server_Start peering_endpoint) ;;
          if negb (Start_rc w =? 0) then
            emit (LOG ERROR [Str "Failed to start peering service"]) ;;
            exit (-1)
          else
          let election_timeout_ms := 5000 in
          emit (ReplicationState_start peering_endpoint api_port
                  election_timeout_ms snapshot_interval_seconds state_dir
                  nodes) ;;
          if negb (ReplicationState_start_rc w =? 0) then
            emit (LOG ERROR [Str "Failed to start peering state"]) ;;
            exit (-1)
          else
          emit (LOG INFO [Str "Typesense peering service is running on ";
                          Num peering_ip; Str ":"; Num peering_port]) ;;
          emit (LOG INFO [Str "Snapshot interval configured as: ";
                          Num snapshot_interval_seconds; Str "s"]) ;;
          maintenance_loop fuel peering_endpoint api_port path_to_nodes
            0%nat 0 ;;
          emit (LOG INFO [Str "Typesense peering service is going to quit."]) ;;
          emit ReplicationState_shutdown ;;
          emit (LOG INFO [Str "raft_server.stop()"]) ;;
          emit raft_server_Stop ;;
          emit (LOG INFO [Str "raft_server.join()"]) ;;
          emit raft_server_Join ;;
          emit (LOG INFO [Str "Typesense peering service has quit."]) ;;
          ret 0
      end
  end.

(* ================================================================== *)
(** ** [run_server] (lines 349-513) *)

(** Lines 451-481: the body of the lambda run by [raft_thread].  The
    thread it starts first runs [batch_indexer->run()]; the value
    returned by [start_raft_server] is dropped. *)
Definition raft_thread_body (config : Config) (state_dir : string)
    (fuel : nat) : M unit :=
  emit (thread_ctor batch_indexing_thread) ;;
  let path_to_nodes := get_nodes config in
  start_raft_server state_dir path_to_nodes
    (get_peering_address config) (get_peering_port config)
    (get_peering_subnet config) (get_api_port config)
    (get_snapshot_interval_seconds config) fuel ;;
  emit (LOG INFO [Str "Shutting down batch indexer..."]) ;;
  emit BatchedIndexer_stop ;;
  emit (LOG INFO [Str "Waiting for batch indexing thread to be done..."]) ;;
  emit (thread_join batch_indexing_thread) ;;
  emit (LOG INFO [Str "Shutting down server_thread_pool"]) ;;
  emit (ThreadPool_shutdown server_thread_pool) ;;
  emit (LOG INFO [Str "Shutting down app_thread_pool."]) ;;
  emit (ThreadPool_shutdown app_thread_pool) ;;
  emit HttpServer_stop.

(** Lines 393-400. *)
Definition proc_count : Z := Z.max 1 (hardware_concurrency w).

Definition num_threads (config : Config) : Z :=
  let thread_pool_size := get_thread_pool_size config in
  if thread_pool_size =? 0 then size_t (proc_count * 8) else thread_pool_size.

Definition num_collections_parallel_load (config : Config) : Z :=
  if get_num_collections_parallel_load config =? 0 then
    size_t (proc_count * 4)
  else get_num_collections_parallel_load config.

(** Lines 350-449: the calling thread up to the point where it starts
    [raft_thread].  [inl rc] is an early [return rc]; [inr state_dir]
    goes on. *)
Definition run_server_setup (config : Config) (version : string)
  : M (Z + string) :=
  emit (LOG INFO [Str "Starting Typesense "; Str version]) ;;
  (if using_jemalloc w then
     emit (LOG INFO [Str "Typesense is using jemalloc."]) ;;
     emit mallctl_background_thread
   else
     emit (LOG WARNING [Str "Typesense is NOT using jemalloc."])) ;;
  emit (store_quit_raft_service false) ;;
  if negb (directory_exists (boot_fs w) (get_data_dir config)) then
    emit (LOG ERROR [Str "Typesense failed to start. "; Str "Data directory ";
                     Str (get_data_dir config); Str " does not exist."]) ;;
    ret (inl 1)
  else
  if negb (empty (get_master config)) then
    emit (LOG ERROR
      [Str "The --master option has been deprecated. Please use clustering for high availability. ";
       Str "Look for the --nodes configuration in the documentation."]) ;;
    ret (inl 1)
  else
  when (negb (empty (get_search_only_api_key config)))
    (emit (LOG WARNING [Str "!!!! WARNING !!!!"]) ;;
     emit (LOG WARNING
       [Str "The --search-only-api-key has been deprecated. The API key generation end-point should be used for generating keys with specific ACL."])) ;;
  let db_dir := get_data_dir config ++ "/db" in
  let state_dir := get_data_dir config ++ "/state" in
  let meta_dir := get_data_dir config ++ "/meta" in
  let num_threads := num_threads config in
  let num_collections_parallel_load := num_collections_parallel_load config in
  emit (LOG INFO [Str "Thread pool size: "; Num num_threads]) ;;
  emit (ThreadPool_ctor app_thread_pool num_threads) ;;
  emit (ThreadPool_ctor server_thread_pool num_threads) ;;
  emit (Store_ctor store db_dir) ;;
  emit (Store_ctor meta_store meta_dir) ;;
  emit curl_global_init ;;
  emit (HttpClient_init (get_api_key config)) ;;
  emit (HttpServer_ctor (get_api_address config) (get_api_port config)
          (get_ssl_cert config) (get_ssl_cert_key config)
          (uint32 (get_ssl_refresh_interval_seconds config * 1000))
          (get_enable_cors config) (get_cors_domains config)) ;;
  emit HttpServer_set_auth_handler ;;
  emit (HttpServer_on STREAM_RESPONSE_MESSAGE) ;;
  emit (HttpServer_on REQUEST_PROCEED_MESSAGE) ;;
  emit (HttpServer_on DEFER_PROCESSING_MESSAGE) ;;
  let ssl_enabled :=
    negb (empty (get_ssl_cert config))
    && negb (empty (get_ssl_cert_key config)) in
  emit (BatchedIndexer_ctor num_threads) ;;
  emit (CollectionManager_init (get_api_key config)) ;;
  emit (ReplicationState_ctor ssl_enabled num_collections_parallel_load
          (get_num_documents_parallel_load config)) ;;
  ret (inr state_dir).

(** Lines 483-486: the calling thread enters the API loop. *)
Definition enter_api_loop : M unit :=
  emit (LOG INFO [Str "Starting API service..."]) ;;
  emit master_server_routes ;;
  emit HttpServer_run.

(** Lines 488-512: the calling thread once [server->run] has returned
    [ret_code]. *)
Definition leave_api_loop (ret_code : Z) : M Z :=
  emit (LOG INFO [Str "Typesense API service has quit."]) ;;
  emit (store_quit_raft_service true) ;;
  emit (thread_join raft_thread) ;;
  emit (LOG INFO [Str "Deleting batch indexer"]) ;;
  emit BatchedIndexer_dtor ;;
  emit (LOG INFO [Str "CURL clean up"]) ;;
  emit curl_global_cleanup ;;
  emit (LOG INFO [Str "Deleting server"]) ;;
  emit HttpServer_dtor ;;
  emit (LOG INFO [Str "CollectionManager dispose, this might take some time..."]) ;;
  emit CollectionManager_dispose ;;
  emit (LOG INFO [Str "Bye."]) ;;
  ret ret_code.

(** One run of the process seen per thread: the events of the calling
    thread and of [raft_thread], each in program order, and how the
    process ends.  [thread_ctor raft_thread] in [main_trace] precedes
    every event of [raft_trace], and [thread_join raft_thread] follows
    them all.  When [raft_thread] calls [exit], [main_trace] holds the
    events certain to have happened by then: those up to the start of the
    thread. *)
Record ProcessRun : Type := {
  main_trace : list event;
  raft_trace : list event;
  status : outcome Z
}.

Definition run_server (config : Config) (version : string) (fuel : nat)
  : ProcessRun :=
  match run_server_setup config version with
  | (pre, Done (inl rc)) =>
      {| main_trace := pre; raft_trace := []; status := Done rc |}
  | (pre, Done (inr state_dir)) =>
      let spawned := (pre ++ [thread_ctor raft_thread])%list in
      match raft_thread_body config state_dir fuel with
      | (rt, Done _) =>
          let main := enter_api_loop ;; leave_api_loop (HttpServer_run_rc w) in
          {| main_trace := (spawned ++ trace_of main)%list;
             raft_trace := rt;
             status := outcome_of main |}
      | (rt, Exit s) =>
          {| main_trace := spawned; raft_trace := rt; status := Exit s |}
      | (rt, Spin) =>
          {| main_trace := (spawned ++ trace_of enter_api_loop)%list;
             raft_trace := rt;
             status := Spin |}
      end
  | (pre, Exit s) =>
      {| main_trace := pre; raft_trace := []; status := Exit s |}
  | (pre, Spin) =>
      {| main_trace := pre; raft_trace := []; status := Spin |}
  end.

End WithLib.

(* ================================================================== *)
(** ** A reference instance of the library calls

    Dotted-quad parsing and printing on a little-endian host, used to run
    the definitions above on concrete inputs. *)

Module Reference.

Definition digit (c : ascii) : option Z :=
  let n := Z.of_nat (nat_of_ascii c) in
  if (48 <=? n) && (n <=? 57) then Some (n - 48) else None.

Fixpoint digits (s : string) (acc : Z) : option Z :=
  match s with
  | EmptyString => Some acc
  | String c s' =>
      match digit c with
      | Some d => digits s' (10 * acc + d)
      | None => None
      end
  end.

Definition decimal (s : string) : option Z :=
  if empty s then None else digits s 0.

(** The parts of [s] between occurrences of [c]; [cur] is the part being
    read, reversed. *)
Fixpoint split_at (c : ascii) (s : string) (cur : string) : list string :=
  match s with
  | EmptyString => [cur]
  | String x s' =>
      if Ascii.eqb x c then cur :: split_at c s' ""
      else split_at c s' (cur ++ String x "")
  end.

Definition split (s delim : string) : list string :=
  match delim with
  | EmptyString => [s]
  | String c _ => split_at c s ""
  end.

Definition is_uint32_t (s : string) : bool :=
  match decimal s with
  | Some n => n <? 2 ^ 32
  | None => false
  end.

Definition stoll (s : string) : Z :=
  match decimal s with Some n => n | None => 0 end.

Definition octet (s : string) : option Z :=
  match decimal s with
  | Some n => if n <? 256 then Some n else None
  | None => None
  end.

(** [s_addr] of [a.b.c.d]: the four octets in memory order, read as a
    little-endian word. *)
Definition inet_addr (a b c d : Z) : Z :=
  a + b * 2 ^ 8 + c * 2 ^ 16 + d * 2 ^ 24.

Definition str2ip (s : string) : option Z :=
  match map octet (split s ".") with
  | [Some a; Some b; Some c; Some d] => Some (inet_addr a b c d)
  | _ => None
  end.

Definition bswap32 (x : Z) : Z :=
  Z.lor (Z.lor (Z.shiftl (Z.land x 255) 24)
               (Z.shiftl (Z.land (Z.shiftr x 8) 255) 16))
        (Z.lor (Z.shiftl (Z.land (Z.shiftr x 16) 255) 8)
               (Z.land (Z.shiftr x 24) 255)).

Definition digit_char (d : Z) : ascii := ascii_of_nat (48 + Z.to_nat d).

Fixpoint print_digits (fuel : nat) (n : Z) (acc : string) : string :=
  match fuel with
  | O => acc
  | S fuel' =>
      let acc' := String (digit_char (n mod 10)) acc in
      if n <? 10 then acc' else print_digits fuel' (n / 10) acc'
  end.

Definition print_decimal (n : Z) : string := print_digits 20 n "".

Definition ntoa (x : Z) : string :=
  print_decimal (Z.land x 255) ++ "." ++
  print_decimal (Z.land (Z.shiftr x 8) 255) ++ "." ++
  print_decimal (Z.land (Z.shiftr x 16) 255) ++ "." ++
  print_decimal (Z.land (Z.shiftr x 24) 255).

Definition nodes_config (e : EndPoint) (api_port : Z) (nodes : string)
  : string :=
  if empty nodes then
    ntoa (ip e) ++ ":" ++ print_decimal (port e) ++ ":"
    ++ print_decimal api_port
  else nodes.

#[local] Instance lib : Lib := {|
  StringUtils_split := split;
  StringUtils_is_uint32_t := is_uint32_t;
  std_stoll := stoll;
  butil_str2ip := str2ip;
  ntohl := bswap32;
  inet_ntoa := ntoa;
  to_nodes_config := nodes_config
|}.

End Reference.

(* ================================================================== *)
(** ** Observations used in the statements *)

(** The teardown calls made on the peering thread. *)
Definition is_teardown (e : event) : bool :=
  match e with
  | ReplicationState_shutdown | raft_server_Stop | raft_server_Join
  | BatchedIndexer_stop | thread_join batch_indexing_thread
  | ThreadPool_shutdown _ | HttpServer_stop => true
  | _ => false
  end.

Definition teardown (tr : list event) : list event := filter is_teardown tr.

(** The teardown calls made on the calling thread. *)
Definition is_disposal (e : event) : bool :=
  match e with
  | thread_join raft_thread | BatchedIndexer_dtor | curl_global_cleanup
  | HttpServer_dtor | CollectionManager_dispose => true
  | _ => false
  end.

Definition disposal (tr : list event) : list event := filter is_disposal tr.

(** Creation of a thread or of a worker pool. *)
Definition is_spawn (e : event) : bool :=
  match e with
  | thread_ctor _ | ThreadPool_ctor _ _ => true
  | _ => false
  end.

Definition is_log (e : event) : bool :=
  match e with LOG _ _ => true | _ => false end.

(** The IPv4 address of an interface entry, when it has one. *)
Definition ipv4_of (ifa : ifaddrs) : list Z :=
  match ifa_addr ifa with
  | Some sa => if sa_family sa =? AF_INET then [sin_addr sa] else []
  | None => []
  end.

Section Candidates.

Context {lib : Lib}.

(** The private-range addresses of the interface list, in list order. *)
Definition private_addrs (ifap : list ifaddrs) : list Z :=
  filter (fun a => is_private_ip (ntohl a)) (flat_map ipv4_of ifap).

(** Line 215/224: the constraint is in force. *)
Definition constrained (netip netbits : Z) : bool :=
  negb (netip =? 0) && negb (netbits =? 0).

Definition in_subnet (netip netbits a : Z) : bool :=
  negb (subnet_mismatch netip netbits a).

(** The addresses the scan may return: private, and inside the subnet
    when a constraint is in force. *)
Definition eligible (netip netbits : Z) (ifap : list ifaddrs) : list Z :=
  filter (fun a => if constrained netip netbits
                   then in_subnet netip netbits a else true)
         (private_addrs ifap).

End Candidates.

(** What one pass of the maintenance loop may emit. *)
Definition is_maintenance (e : event) : bool :=
  match e with
  | LOG WARNING _ | ReplicationState_refresh_nodes _
  | ReplicationState_refresh_catchup_status _
  | ReplicationState_do_snapshot | sleep _ => true
  | _ => false
  end.

(** The address the peering endpoint is built from, when the conversion
    of lines 259-267 succeeds. *)
Definition resolved_peering_ip {lib : Lib} (w : World) (config : Config)
  : option Z :=
  match outcome_of (resolve_peering_ip w (get_peering_address config)
                      (get_peering_subnet config)) with
  | Done conv => conv
  | _ => None
  end.

(** The events of the pass of the maintenance loop that follows
    evaluation [j] of the loop condition, run at counter value [j]. *)
Definition pass_events {lib : Lib} (w : World) (peering_endpoint : EndPoint)
    (api_port : Z) (path_to_nodes : string) (j : nat) : list event :=
  trace_of (loop_body (fs_at w j) peering_endpoint api_port path_to_nodes
              (Z.of_nat j)).

(** The node list read when the process starts. *)
Definition boot_nodes (w : World) (config : Config) : Option string :=
  fetch_nodes_config (boot_fs w) (get_nodes config).

(** The order of teardown calls as the specification lists it. *)
Definition specified_teardown_order : list event :=
  [BatchedIndexer_stop; thread_join batch_indexing_thread;
   ThreadPool_shutdown server_thread_pool;
   ThreadPool_shutdown app_thread_pool; HttpServer_stop;
   ReplicationState_shutdown; raft_server_Stop; raft_server_Join].

(** Whitespace as [isspace] sees it in the C locale. *)
Definition is_space (c : ascii) : bool :=
  let n := nat_of_ascii c in
  (n =? 32)%nat || ((9 <=? n)%nat && (n <=? 13)%nat).

Fixpoint all_space (s : string) : bool :=
  match s with
  | EmptyString => true
  | String c s' => is_space c && all_space s'
  end.

(* ================================================================== *)
(** ** Concrete configurations and worlds *)

Module Demo.

#[local] Existing Instance Reference.lib.

Definition nodes_path : string := "/etc/typesense/nodes".
Definition data_dir : string := "/var/lib/typesense".

Definition newline : string := String (ascii_of_nat 10) "".

Definition three_nodes : string :=
  "192.168.1.5:8107:8108,192.168.1.6:8107:8108,192.168.1.7:8107:8108".

(** The data directory and, for [Some c], a node-list file holding [c]. *)
Definition fs (nodes : option string) : FileSystem :=
  {| file_exists := fun p =>
       match nodes with Some _ => String.eqb p nodes_path | None => false end;
     directory_exists := fun p => String.eqb p data_dir;
     read_stream := fun p =>
       match nodes with
       | Some c => if String.eqb p nodes_path then c else ""
       | None => ""
       end |}.

Definition config (nodes peering_address : string) : Config :=
  {| get_log_dir := "";
     get_data_dir := data_dir;
     get_master := "";
     get_search_only_api_key := "";
     get_api_key := "xyz";
     get_api_address := "0.0.0.0";
     get_api_port := 8108;
     get_ssl_cert := "";
     get_ssl_cert_key := "";
     get_ssl_refresh_interval_seconds := 28800;
     get_enable_cors := true;
     get_cors_domains := "";
     get_thread_pool_size := 4;
     get_num_collections_parallel_load := 4;
     get_num_documents_parallel_load := 1000;
     get_nodes := nodes;
     get_peering_address := peering_address;
     get_peering_port := 8107;
     get_peering_subnet := "";
     get_snapshot_interval_seconds := 3600 |}.

Definition iface (name : string) (a b c d : Z) : ifaddrs :=
  {| ifa_name := name;
     ifa_addr := Some {| sa_family := AF_INET;
                         sin_addr := Reference.inet_addr a b c d |} |}.

Definition SIGINT : Z := 2.

(** One [SIGINT] just before the [n]-th evaluation of the loop
    condition. *)
Definition interrupt_at (n : nat) : nat -> list trigger :=
  fun k => if Nat.eqb k n then [Signal SIGINT] else [].

(** Two of them in the same slot. *)
Definition interrupt_twice_at (n : nat) : nat -> list trigger :=
  fun k => if Nat.eqb k n then [Signal SIGINT; Signal SIGINT] else [].

Definition api_exit_at (n : nat) : nat -> list trigger :=
  fun k => if Nat.eqb k n then [ApiLoopExit] else [].

Definition world (boot : FileSystem) (later : nat -> FileSystem)
    (sched : nat -> list trigger) (rcs : Z * Z * Z) : World :=
  {| mallctl_linked := true;
     hardware_concurrency := 4;
     boot_fs := boot;
     getifaddrs := [iface "lo" 127 0 0 1; iface "eth0" 192 168 1 5;
                    iface "eth1" 10 1 2 3];
     add_service_rc := fst (fst rcs);
     Start_rc := snd (fst rcs);
     ReplicationState_start_rc := snd rcs;
     IsAskedToQuit := fun _ => false;
     installed := fun _ => SIG_HANDLER;
     early_signals := [];
     schedule := sched;
     fs_at := later;
     HttpServer_run_rc := 0 |}.

(** Single node, explicit peering address, interrupted during the
    second pass of the maintenance loop. *)
Definition single_node : World :=
  world (fs None) (fun _ => fs None) (interrupt_at 2) (0, 0, 0).

Definition single_node_config : Config := config "" "127.0.0.1".

(** The node-list file exists and is empty when the process starts. *)
Definition empty_nodes_file : World :=
  world (fs (Some "")) (fun _ => fs (Some "")) (interrupt_at 2) (0, 0, 0).

Definition cluster_config : Config := config nodes_path "127.0.0.1".

(** The node-list file is there when the process starts, is missing
    during the first three passes of the maintenance loop and is back
    afterwards; the interrupt comes before the fourth evaluation. *)
Definition flaky : World :=
  world (fs (Some three_nodes))
        (fun k => if (k <? 3)%nat then fs None else fs (Some three_nodes))
        (interrupt_at 3) (0, 0, 0).

Definition peer : EndPoint :=
  {| ip := Reference.inet_addr 127 0 0 1; port := 8107 |}.

(** [c] with another data directory, master address and log directory. *)
Definition relocate (c : Config) (data master log : string) : Config :=
  {| get_log_dir := log;
     get_data_dir := data;
     get_master := master;
     get_search_only_api_key := get_search_only_api_key c;
     get_api_key := get_api_key c;
     get_api_address := get_api_address c;
     get_api_port := get_api_port c;
     get_ssl_cert := get_ssl_cert c;
     get_ssl_cert_key := get_ssl_cert_key c;
     get_ssl_refresh_interval_seconds := get_ssl_refresh_interval_seconds c;
     get_enable_cors := get_enable_cors c;
     get_cors_domains := get_cors_domains c;
     get_thread_pool_size := get_thread_pool_size c;
     get_num_collections_parallel_load := get_num_collections_parallel_load c;
     get_num_documents_parallel_load := get_num_documents_parallel_load c;
     get_nodes := get_nodes c;
     get_peering_address := get_peering_address c;
     get_peering_port := get_peering_port c;
     get_peering_subnet := get_peering_subnet c;
     get_snapshot_interval_seconds := get_snapshot_interval_seconds c |}.

(** The three bootstrap calls failing in turn. *)
Definition add_service_fails : World :=
  world (fs None) (fun _ => fs None) (interrupt_at 2) (1, 0, 0).
Definition Start_fails : World :=
  world (fs None) (fun _ => fs None) (interrupt_at 2) (0, 1, 0).
Definition replication_start_fails : World :=
  world (fs None) (fun _ => fs None) (interrupt_at 2) (0, 0, 1).

(** The API loop returns on its own before the third evaluation. *)
Definition api_loop_exits : World :=
  world (fs None) (fun _ => fs None) (api_exit_at 2) (0, 0, 0).

(** The interrupt arrives twice. *)
Definition interrupted_twice : World :=
  world (fs None) (fun _ => fs None) (interrupt_twice_at 2) (0, 0, 0).

Definition state_dir : string := "/var/lib/typesense/state".

Definition one_nic : list ifaddrs :=
  [iface "lo" 127 0 0 1; iface "eth0" 192 168 1 5].

Definition two_nics : list ifaddrs :=
  [iface "lo" 127 0 0 1; iface "eth0" 192 168 1 5; iface "eth1" 10 1 2 3].

End Demo.

(* ================================================================== *)
(** ** Command-line options (lines 64-109)

    [cmdline::parser] is kept as the program name and the options in the
    order of their registration; [add] appends one.  (The library refuses
    a second registration of a name; the table below never makes one.) *)

Inductive value : Type :=
| VString (s : string)
| VUInt32 (n : Z)
| VBool (b : bool)
| VFloat (num den : Z)
| VInt (n : Z)
| VSize (n : Z).

Record option_def : Type := {
  opt_name : string;
  short_name : ascii;
  opt_desc : string;
  need : bool;
  def : value
}.

Record parser : Type := {
  program_name : string;
  ordered : list option_def
}.

Definition set_program_name (n : string) (p : parser) : parser :=
  {| program_name := n; ordered := ordered p |}.

Definition add (name : string) (short : ascii) (desc : string)
    (need : bool) (def : value) (p : parser) : parser :=
  {| program_name := program_name p;
     ordered := (ordered p ++
                 [ {| opt_name := name; short_name := short;
                      opt_desc := desc; need := need; def := def |} ])%list |}.

(** ['\0']. *)
Definition NUL : ascii := Ascii.zero.

Definition init_cmdline_options (options : parser) : parser :=
  let options := set_program_name "./typesense-server" options in
  let options := add "data-dir" "d" "Directory where data will be stored." true (VString "") options in
  let options := add "api-key" "a" "API key that allows all operations." true (VString "") options in
  let options := add "search-only-api-key" "s" "[DEPRECATED: use API key management end-point] API key that allows only searches." false (VString "") options in
  let options := add "api-address" NUL "Address to which Typesense API service binds." false (VString "0.0.0.0") options in
  let options := add "api-port" NUL "Port on which Typesense API service listens." false (VUInt32 8108) options in
  let options := add "peering-address" NUL "Internal IP address to which Typesense peering service binds." false (VString "") options in
  let options := add "peering-port" NUL "Port on which Typesense peering service listens." false (VUInt32 8107) options in
  let options := add "peering-subnet" NUL "Internal subnet that Typesense should use for peering." false (VString "") options in
  let options := add "nodes" NUL "Path to file containing comma separated string of all nodes in the cluster." false (VString "") options in
  let options := add "ssl-certificate" "c" "Path to the SSL certificate file." false (VString "") options in
  let options := add "ssl-certificate-key" "k" "Path to the SSL certificate key file." false (VString "") options in
  let options := add "ssl-refresh-interval-seconds" NUL "Frequency of automatic reloading of SSL certs from disk." false (VUInt32 (8 * 60 * 60)) options in
  let options := add "enable-cors" NUL "Enable CORS requests." false (VBool true) options in
  let options := add "cors-domains" NUL "Comma separated list of domains that are allowed for CORS." false (VString "") options in
  let options := add "max-memory-ratio" NUL "Maximum fraction of system memory to be used." false (VFloat 1 1) options in
  let options := add "snapshot-interval-seconds" NUL "Frequency of replication log snapshots." false (VInt 3600) options in
  let options := add "healthy-read-lag" NUL "Reads are rejected if the updates lag behind this threshold." false (VSize 1000) options in
  let options := add "healthy-write-lag" NUL "Writes are rejected if the updates lag behind this threshold." false (VSize 500) options in
  let options := add "log-slow-requests-time-ms" NUL "When > 0, requests that take longer than this duration are logged." false (VInt (-1)) options in
  let options := add "num-collections-parallel-load" NUL "Number of collections that are loaded in parallel during start up." false (VUInt32 4) options in
  let options := add "num-documents-parallel-load" NUL "Number of documents per collection that are indexed in parallel during start up." false (VUInt32 1000) options in
  let options := add "thread-pool-size" NUL "Number of threads used for handling concurrent requests." false (VUInt32 4) options in
  let options := add "log-dir" NUL "Path to the log directory." false (VString "") options in
  let options := add "config" NUL "Path to the configuration file." false (VString "") options in
  let options := add "enable-access-logging" NUL "Enable access logging." false (VBool false) options in
  let options := add "disk-used-max-percentage" NUL "Reject writes when used disk space exceeds this percentage. Default: 100 (never reject)." false (VInt 100) options in
  let options := add "listen-address" "h" "[DEPRECATED: use `api-address`] Address to which Typesense API service binds." false (VString "0.0.0.0") options in
  let options := add "listen-port" "p" "[DEPRECATED: use `api-port`] Port on which Typesense API service listens." false (VUInt32 8108) options in
  let options := add "master" "m" "[DEPRECATED: use clustering via --nodes] Master's address in http(s)://<master_address>:<master_port> format to start as read-only replica." false (VString "") options in
  options.

(** The option registered under a long name, and under a short flag. *)
Definition find_option (name : string) (p : parser) : option option_def :=
  find (fun o => String.eqb (opt_name o) name) (ordered p).

Definition find_short (c : ascii) (p : parser) : option option_def :=
  find (fun o => Ascii.eqb (short_name o) c) (ordered p).

Definition default_of (name : string) (p : parser) : option value :=
  option_map def (find_option name p).

(* ================================================================== *)
(** ** Further observations *)

(** The host-order word of the dotted quad [a.b.c.d]. *)
Definition ipv4 (a b c d : Z) : Z := a * 2 ^ 24 + b * 2 ^ 16 + c * 2 ^ 8 + d.

Definition octet (x : Z) : Prop := 0 <= x < 256.

Definition is_sleep (e : event) : bool :=
  match e with sleep _ => true | _ => false end.

(** Calls other than log lines and the work of the maintenance loop. *)
Definition is_call (e : event) : bool :=
  negb (is_log e) && negb (is_maintenance e).

(** The three calls that bring the peering service up. *)
Definition is_bootstrap (e : event) : bool :=
  match e with
  | braft_add_service _ | raft_server_Start _
  | ReplicationState_start _ _ _ _ _ _ => true
  | _ => false
  end.

Definition is_thread_event (e : event) : bool :=
  match e with thread_ctor _ | thread_join _ => true | _ => false end.

(** Construction of a pool, store, client, server, indexer, manager,
    replication state or thread. *)
Definition is_construction (e : event) : bool :=
  match e with
  | ThreadPool_ctor _ _ | Store_ctor _ _ | curl_global_init
  | HttpClient_init _ | HttpServer_ctor _ _ _ _ _ _ _
  | BatchedIndexer_ctor _ | CollectionManager_init _
  | ReplicationState_ctor _ _ _ | thread_ctor _ => true
  | _ => false
  end.

(** A change of a glog flag or destination. *)
Definition is_log_setting (e : event) : bool :=
  match e with
  | FLAGS_logtostderr _ | FLAGS_logbuflevel _
  | FLAGS_timestamp_in_logfile_name _ | SetLogDestination _ _
  | SetLogDestination_FATAL _ | SetLogSymlink _ _ => true
  | _ => false
  end.

(** A trigger that stores [true] when it fires first after line 368:
    the API loop returning, or a signal whose disposition at line 368 is
    the handler. *)
Definition effective (w : World) (t : trigger) : bool :=
  match t with
  | ApiLoopExit => true
  | Signal sig =>
      match sigaction (initial_signals w) sig with
      | SIG_HANDLER => true
      | SIG_IGN => false
      end
  end.

(** [w] with another interface list. *)
Definition with_interfaces (w : World) (ifap : list ifaddrs) : World :=
  {| mallctl_linked := mallctl_linked w;
     hardware_concurrency := hardware_concurrency w;
     boot_fs := boot_fs w;
     getifaddrs := ifap;
     add_service_rc := add_service_rc w;
     Start_rc := Start_rc w;
     ReplicationState_start_rc := ReplicationState_start_rc w;
     IsAskedToQuit := IsAskedToQuit w;
     installed := installed w;
     early_signals := early_signals w;
     schedule := schedule w;
     fs_at := fs_at w;
     HttpServer_run_rc := HttpServer_run_rc w |}.

(** [c] with other values of three of its getters. *)
Definition with_peering (c : Config) (address subnet : string) : Config :=
  {| get_log_dir := get_log_dir c;
     get_data_dir := get_data_dir c;
     get_master := get_master c;
     get_search_only_api_key := get_search_only_api_key c;
     get_api_key := get_api_key c;
     get_api_address := get_api_address c;
     get_api_port := get_api_port c;
     get_ssl_cert := get_ssl_cert c;
     get_ssl_cert_key := get_ssl_cert_key c;
     get_ssl_refresh_interval_seconds := get_ssl_refresh_interval_seconds c;
     get_enable_cors := get_enable_cors c;
     get_cors_domains := get_cors_domains c;
     get_thread_pool_size := get_thread_pool_size c;
     get_num_collections_parallel_load := get_num_collections_parallel_load c;
     get_num_documents_parallel_load := get_num_documents_parallel_load c;
     get_nodes := get_nodes c;
     get_peering_address := address;
     get_peering_port := get_peering_port c;
     get_peering_subnet := subnet;
     get_snapshot_interval_seconds := get_snapshot_interval_seconds c |}.

Definition with_search_only_api_key (c : Config) (key : string) : Config :=
  {| get_log_dir := get_log_dir c;
     get_data_dir := get_data_dir c;
     get_master := get_master c;
     get_search_only_api_key := key;
     get_api_key := get_api_key c;
     get_api_address := get_api_address c;
     get_api_port := get_api_port c;
     get_ssl_cert := get_ssl_cert c;
     get_ssl_cert_key := get_ssl_cert_key c;
     get_ssl_refresh_interval_seconds := get_ssl_refresh_interval_seconds c;
     get_enable_cors := get_enable_cors c;
     get_cors_domains := get_cors_domains c;
     get_thread_pool_size := get_thread_pool_size c;
     get_num_collections_parallel_load := get_num_collections_parallel_load c;
     get_num_documents_parallel_load := get_num_documents_parallel_load c;
     get_nodes := get_nodes c;
     get_peering_address := get_peering_address c;
     get_peering_port := get_peering_port c;
     get_peering_subnet := get_peering_subnet c;
     get_snapshot_interval_seconds := get_snapshot_interval_seconds c |}.

(** More worlds to run the definitions in. *)
Module Scenario.

(** The node-list file is configured but missing when the process
    starts. *)
Definition missing_nodes_file : World :=
  Demo.world (Demo.fs None) (fun _ => Demo.fs None) (Demo.interrupt_at 2)
    (0, 0, 0).

(** No trigger ever fires; brpc asks to quit at evaluation [n]. *)
Definition asked_to_quit (n : nat) : World :=
  {| mallctl_linked := false;
     hardware_concurrency := 0;
     boot_fs := Demo.fs None;
     getifaddrs := Demo.two_nics;
     add_service_rc := 0;
     Start_rc := 0;
     ReplicationState_start_rc := 0;
     IsAskedToQuit := fun k => Nat.eqb k n;
     installed := fun _ => SIG_HANDLER;
     early_signals := [];
     schedule := fun _ => [];
     fs_at := fun _ => Demo.fs None;
     HttpServer_run_rc := 0 |}.


(** The interrupt arrives before evaluation [n], a different signal
    after it. *)
Definition interrupt_then_term (n : nat) : World :=
  Demo.world (Demo.fs None) (fun _ => Demo.fs None)
    (fun k => if Nat.eqb k n then [Signal Demo.SIGINT]
              else if Nat.eqb k (S n) then [Signal 15] else [])
    (0, 0, 0).

(** Nothing ever asks to quit. *)
Definition never_quits : World :=
  Demo.world (Demo.fs None) (fun _ => Demo.fs None) (fun _ => []) (0, 0, 0).

(** No explicit peering address: the address is taken from the
    interfaces. *)
Definition auto_config : Config := Demo.config "" "".

Definition empty_parser : parser := {| program_name := ""; ordered := [] |}.

End Scenario.

(* ================================================================== *)
(** * Properties *)

Unset Implicit Arguments.

(** ** The trace monad *)

Ltac run_trace :=
  cbn [bind emit ret exit when negb app fst snd trace_of outcome_of Z.eqb].

Ltac project_trace :=
  unfold teardown, disposal;
  repeat (progress (cbn [filter is_teardown is_spawn is_disposal app];
                    rewrite ?filter_app)).

Ltac find_event :=
  cbn [In];
  first [ left; reflexivity
        | right; find_event
        | apply in_or_app; left; find_event
        | apply in_or_app; right; find_event ].

Ltac project_calls :=
  repeat (progress (cbn [filter is_call is_log is_maintenance negb andb app];
                    rewrite ?filter_app)).

Lemma trace_bind {A B} (m : M A) (k : A -> M B) :
  trace_of (bind m k) =
  (trace_of m ++
   match outcome_of m with Done a => trace_of (k a) | _ => [] end)%list.
Proof.
  destruct m as [t [a | s | ]]; simpl.
  - destruct (k a); reflexivity.
  - now rewrite app_nil_r.
  - now rewrite app_nil_r.
Qed.

Lemma outcome_bind {A B} (m : M A) (k : A -> M B) :
  outcome_of (bind m k) =
  match outcome_of m with
  | Done a => outcome_of (k a)
  | Exit s => Exit s
  | Spin => Spin
  end.
Proof.
  destruct m as [t [a | s | ]]; simpl; try reflexivity.
  destruct (k a); reflexivity.
Qed.

Lemma bind_done {A B} (m : M A) (k : A -> M B) t a :
  m = (t, Done a) ->
  bind m k = ((t ++ trace_of (k a))%list, outcome_of (k a)).
Proof. intros ->. simpl. destruct (k a); reflexivity. Qed.

Lemma bind_emit {B} (e : event) (k : unit -> M B) :
  bind (emit e) k = (e :: trace_of (k tt), outcome_of (k tt)).
Proof. unfold emit. simpl. destruct (k tt); reflexivity. Qed.

Lemma M_eta {A} (m : M A) : m = (trace_of m, outcome_of m).
Proof. destruct m; reflexivity. Qed.

(* ------------------------------------------------------------------ *)
(** ** Node membership source *)

Lemma empty_true (s : string) : empty s = true <-> s = "".
Proof. destruct s; simpl; split; congruence. Qed.

Lemma empty_false (s : string) : empty s = false <-> s <> "".
Proof. destruct s; simpl; split; congruence. Qed.

Lemma fetch_nodes_config_content (fs : FileSystem) (path : string) :
  path <> "" -> file_exists fs path = true -> read_stream fs path <> "" ->
  fetch_nodes_config fs path = Ok (read_stream fs path).
Proof.
  unfold fetch_nodes_config, fetch_file_contents.
  intros Hp%empty_false Hx Hc%empty_false.
  now rewrite Hp, Hx; simpl; rewrite Hc.
Qed.

(** C5.  [fetch_nodes_config] on every path: an empty path gives success
    with the empty node list; a non-empty path without a file gives the
    read error (which carries the file-not-found message); a file that
    exists with empty content gives the empty-configuration error; a file
    with content gives exactly that content.  The two errors differ. *)
Theorem fetch_nodes_config_cases (fs : FileSystem) (path : string) :
  (path = "" -> fetch_nodes_config fs path = Ok "")
  /\ (path <> "" -> file_exists fs path = false ->
      fetch_nodes_config fs path =
      Error 500 ("Error reading file containing nodes configuration: "
                 ++ "File does not exist at: " ++ path))
  /\ (path <> "" -> file_exists fs path = true -> read_stream fs path = "" ->
      fetch_nodes_config fs path =
      Error 500 "File containing nodes configuration is empty.")
  /\ (path <> "" -> file_exists fs path = true -> read_stream fs path <> "" ->
      fetch_nodes_config fs path = Ok (read_stream fs path))
  /\ (Error 500 ("Error reading file containing nodes configuration: "
                 ++ "File does not exist at: " ++ path)
      <> Error (T := string) 500
           "File containing nodes configuration is empty.").
Proof.
  unfold fetch_nodes_config, fetch_file_contents.
  split; [| split; [| split; [| split]]].
  - intros ->. reflexivity.
  - intros Hp%empty_false Hx. now rewrite Hp, Hx.
  - intros Hp%empty_false Hx Hc. now rewrite Hp, Hx, Hc.
  - apply fetch_nodes_config_content.
  - simpl. discriminate.
Qed.

Lemma fetch_nodes_config_cases_witness :
  fetch_nodes_config (Demo.fs None) "" = Ok ""
  /\ fetch_nodes_config (Demo.fs None) Demo.nodes_path =
     Error 500 ("Error reading file containing nodes configuration: "
                ++ "File does not exist at: " ++ Demo.nodes_path)
  /\ fetch_nodes_config (Demo.fs (Some "")) Demo.nodes_path =
     Error 500 "File containing nodes configuration is empty."
  /\ fetch_nodes_config (Demo.fs (Some Demo.three_nodes)) Demo.nodes_path =
     Ok Demo.three_nodes.
Proof.
  split; [| split; [| split]].
  - destruct (fetch_nodes_config_cases (Demo.fs None) "") as (H & _).
    apply H. reflexivity.
  - destruct (fetch_nodes_config_cases (Demo.fs None) Demo.nodes_path)
      as (_ & H & _).
    apply H; [discriminate | reflexivity].
  - destruct (fetch_nodes_config_cases (Demo.fs (Some "")) Demo.nodes_path)
      as (_ & _ & H & _).
    apply H; [discriminate | reflexivity | reflexivity].
  - destruct (fetch_nodes_config_cases (Demo.fs (Some Demo.three_nodes))
                Demo.nodes_path) as (_ & _ & _ & H & _).
    apply H; [discriminate | reflexivity | discriminate].
Defined.

(** C10.  A node-list file whose content is whitespace only (and not
    empty) is accepted and returned as it is; the empty-configuration
    error is returned exactly for a non-empty path whose file exists with
    content of zero bytes. *)
Theorem whitespace_nodes_config_accepted (fs : FileSystem) (path : string) :
  (path <> "" -> file_exists fs path = true ->
   read_stream fs path <> "" -> all_space (read_stream fs path) = true ->
   fetch_nodes_config fs path = Ok (read_stream fs path))
  /\ (fetch_nodes_config fs path =
      Error 500 "File containing nodes configuration is empty."
      <-> path <> "" /\ file_exists fs path = true
          /\ read_stream fs path = "").
Proof.
  split.
  - intros Hp Hx Hc _. now apply fetch_nodes_config_content.
  - unfold fetch_nodes_config, fetch_file_contents.
    destruct path as [| c path']; simpl.
    + split; [discriminate | intros [H _]; now elim H].
    + destruct (file_exists fs (String c path')); simpl.
      * destruct (read_stream fs (String c path')) as [| d rest]; simpl.
        -- split; [intros _; repeat split; discriminate | reflexivity].
        -- split; [discriminate | intros (_ & _ & H); discriminate].
      * split; [discriminate | intros (_ & H & _); discriminate].
Qed.

Lemma whitespace_nodes_config_accepted_witness :
  fetch_nodes_config (Demo.fs (Some Demo.newline)) Demo.nodes_path
  = Ok Demo.newline.
Proof.
  destruct (whitespace_nodes_config_accepted
              (Demo.fs (Some Demo.newline)) Demo.nodes_path) as (H & _).
  apply H; [discriminate | reflexivity | discriminate | reflexivity].
Defined.

(* ------------------------------------------------------------------ *)
(** ** One pass of the maintenance loop *)

Section Scheduler.

Context {lib : Lib}.

Variables (fs : FileSystem) (peering_endpoint : EndPoint) (api_port : Z)
          (path_to_nodes : string).

(** The pass when the read succeeds (or is not due). *)
Lemma loop_body_ok (t : Z) (nodes : string) :
  fetch_nodes_config fs path_to_nodes = Ok nodes ->
  loop_body fs peering_endpoint api_port path_to_nodes t =
  (((if t mod 10 =? 0
     then [ReplicationState_refresh_nodes
             (to_nodes_config peering_endpoint api_port nodes)]
     else [])
    ++ (if t mod 3 =? 0
        then [ReplicationState_refresh_catchup_status (t mod 9 =? 0)]
        else [])
    ++ (if t mod 60 =? 0 then [ReplicationState_do_snapshot] else [])
    ++ [sleep 1])%list,
   Done (size_t (t + 1))).
Proof.
  intros Hok. unfold loop_body, refresh_membership. rewrite Hok.
  destruct (t mod 10 =? 0), (t mod 3 =? 0), (t mod 60 =? 0); reflexivity.
Qed.

(** The pass when the read is due and fails: [continue]. *)
Lemma loop_body_continue (t : Z) (code : Z) (err : string) :
  t mod 10 = 0 ->
  fetch_nodes_config fs path_to_nodes = Error code err ->
  loop_body fs peering_endpoint api_port path_to_nodes t =
  ([LOG WARNING [Str "Error while refreshing peer configuration: "; Str err]],
   Done t).
Proof.
  intros Ht Herr. unfold loop_body, refresh_membership.
  apply Z.eqb_eq in Ht. rewrite Ht, Herr. reflexivity.
Qed.

Lemma loop_body_done (t : Z) :
  exists c, outcome_of
              (loop_body fs peering_endpoint api_port path_to_nodes t)
            = Done c.
Proof.
  unfold loop_body, refresh_membership.
  destruct (t mod 10 =? 0), (fetch_nodes_config fs path_to_nodes),
    (t mod 3 =? 0), (t mod 60 =? 0); simpl; eauto.
Qed.

Lemma loop_body_maintenance (t : Z) :
  forallb is_maintenance
    (trace_of (loop_body fs peering_endpoint api_port path_to_nodes t))
  = true.
Proof.
  unfold loop_body, refresh_membership.
  destruct (t mod 10 =? 0), (fetch_nodes_config fs path_to_nodes),
    (t mod 3 =? 0), (t mod 60 =? 0); reflexivity.
Qed.

Lemma mod9_mod3 (t : Z) : t mod 9 = 0 -> t mod 3 = 0.
Proof.
  intros H. apply Z.mod_divide in H; [| lia].
  apply Z.mod_divide; [lia |].
  apply Z.divide_trans with 9; [now exists 3 | exact H].
Qed.

(** What a pass at counter value [t] does when its read succeeds. *)
Lemma loop_body_cadence (t : Z) :
  ok (fetch_nodes_config fs path_to_nodes) = true ->
  let r := loop_body fs peering_endpoint api_port path_to_nodes t in
  ((exists cfg, In (ReplicationState_refresh_nodes cfg) (trace_of r))
   <-> t mod 10 = 0)
  /\ ((exists b, In (ReplicationState_refresh_catchup_status b) (trace_of r))
      <-> t mod 3 = 0)
  /\ (forall b, In (ReplicationState_refresh_catchup_status b) (trace_of r)
                -> b = (t mod 9 =? 0))
  /\ (In (ReplicationState_refresh_catchup_status true) (trace_of r)
      <-> t mod 9 = 0)
  /\ (In ReplicationState_do_snapshot (trace_of r) <-> t mod 60 = 0)
  /\ In (sleep 1) (trace_of r)
  /\ outcome_of r = Done (size_t (t + 1)).
Proof.
  intros Hok r. subst r.
  destruct (fetch_nodes_config fs path_to_nodes) as [nodes |] eqn:E;
    [| discriminate].
  rewrite (loop_body_ok t _ E). unfold trace_of, outcome_of, fst, snd.
  pose proof (@mod9_mod3 t) as H93.
  destruct (Z.eqb_spec (t mod 10) 0) as [H10 | H10];
  destruct (Z.eqb_spec (t mod 3) 0) as [H3 | H3];
  destruct (Z.eqb_spec (t mod 60) 0) as [H60 | H60];
  destruct (Z.eqb_spec (t mod 9) 0) as [H9 | H9];
  simpl;
  repeat match goal with
         | |- _ /\ _ => split
         | |- _ <-> _ => split
         | |- forall _, _ => intro
         | H : exists _, _ |- _ => destruct H
         | H : _ \/ _ |- _ => destruct H
         | H : False |- _ => destruct H
         | H : _ = _ :> event |- _ => first [discriminate H | injection H as H]
         end;
  try tauto; try congruence; try (exfalso; tauto); eauto.
Qed.

End Scheduler.

Section Cadence.

Context {lib : Lib}.
Variables (w : World) (peering_endpoint : EndPoint) (api_port : Z)
          (path_to_nodes : string).

(** While every read succeeds, the pass after evaluation [j] runs at
    counter value [j]. *)
Lemma maintenance_loop_counts (n : nat) :
  forall k : nat,
    (forall j, (k <= j < k + n)%nat ->
       loop_condition w j = true
       /\ ok (fetch_nodes_config (fs_at w j) path_to_nodes) = true) ->
    loop_condition w (k + n) = false ->
    Z.of_nat (k + n) < 2 ^ 64 ->
    maintenance_loop w (S n) peering_endpoint api_port path_to_nodes k
      (Z.of_nat k)
    = (flat_map (pass_events w peering_endpoint api_port path_to_nodes)
         (seq k n),
       Done (Z.of_nat (k + n))).
Proof.
  induction n as [| n IH]; intros k Hrun Hstop Hsmall.
  - rewrite Nat.add_0_r in *. cbn [maintenance_loop]. now rewrite Hstop.
  - destruct (Hrun k ltac:(lia)) as [Hc Hok].
    cbn [maintenance_loop] in *. rewrite Hc.
    destruct (fetch_nodes_config (fs_at w k) path_to_nodes)
      as [nodes |] eqn:E; [| discriminate].
    pose proof (loop_body_ok (fs_at w k) peering_endpoint api_port
                  path_to_nodes (Z.of_nat k) nodes E) as Hb.
    rewrite (bind_done _ _ _ _ Hb).
    assert (size_t (Z.of_nat k + 1) = Z.of_nat (S k)) as ->.
    { unfold size_t. rewrite Z.mod_small; lia. }
    rewrite IH.
    + cbn [seq flat_map trace_of outcome_of fst snd].
      unfold pass_events at 2. rewrite Hb. cbn [trace_of fst].
      now replace (S k + n)%nat with (k + S n)%nat by lia.
    + intros j Hj. apply Hrun. lia.
    + now replace (S k + n)%nat with (k + S n)%nat by lia.
    + now replace (S k + n)%nat with (k + S n)%nat by lia.
Qed.

(** C4.  Let the loop condition hold at evaluations [0..n-1] and fail at
    evaluation [n], with every read succeeding.  Then the loop makes
    exactly the passes [0..n-1], pass [t] at counter value [t], and in
    pass [t]: the membership refresh runs exactly when [t mod 10 = 0];
    the catch-up refresh runs exactly when [t mod 3 = 0], and the flag
    it is given is [true] exactly when [t mod 9 = 0]; the snapshot runs
    exactly when [t mod 60 = 0]. *)
Theorem scheduler_cadence (n : nat) :
  (forall j, (j < n)%nat ->
     loop_condition w j = true
     /\ ok (fetch_nodes_config (fs_at w j) path_to_nodes) = true) ->
  loop_condition w n = false ->
  Z.of_nat n < 2 ^ 64 ->
  maintenance_loop w (S n) peering_endpoint api_port path_to_nodes 0 0
  = (flat_map (pass_events w peering_endpoint api_port path_to_nodes)
       (seq 0 n),
     Done (Z.of_nat n))
  /\ forall t : nat, (t < n)%nat ->
       let tr := pass_events w peering_endpoint api_port path_to_nodes t in
       ((exists cfg, In (ReplicationState_refresh_nodes cfg) tr)
        <-> Z.of_nat t mod 10 = 0)
       /\ ((exists b, In (ReplicationState_refresh_catchup_status b) tr)
           <-> Z.of_nat t mod 3 = 0)
       /\ (forall b, In (ReplicationState_refresh_catchup_status b) tr ->
                     b = (Z.of_nat t mod 9 =? 0))
       /\ (In (ReplicationState_refresh_catchup_status true) tr
           <-> Z.of_nat t mod 9 = 0)
       /\ (In ReplicationState_do_snapshot tr <-> Z.of_nat t mod 60 = 0).
Proof.
  intros Hrun Hstop Hsmall. split.
  - apply (maintenance_loop_counts n 0%nat); auto.
    intros j Hj. apply Hrun. lia.
  - intros t Ht tr. subst tr. unfold pass_events.
    destruct (Hrun t Ht) as [_ Hok].
    pose proof (loop_body_cadence (fs_at w t) peering_endpoint api_port
                  path_to_nodes (Z.of_nat t) Hok) as H.
    cbv zeta in H. tauto.
Qed.

End Cadence.

Lemma scheduler_cadence_witness :
  maintenance_loop (lib := Reference.lib) Demo.single_node 3 Demo.peer 8108
    "" 0 0
  = (flat_map (pass_events (lib := Reference.lib) Demo.single_node Demo.peer
                 8108 "") [0%nat; 1%nat],
     Done 2).
Proof.
  destruct (scheduler_cadence (lib := Reference.lib) Demo.single_node
              Demo.peer 8108 "" 2) as [H _].
  - intros j Hj.
    destruct j as [| [| j]]; [split; reflexivity | split; reflexivity | lia].
  - reflexivity.
  - reflexivity.
  - exact H.
Defined.

(** C2 (the code departs from it).  At counter value 60 the membership
    refresh, the catch-up refresh and the snapshot are all due.  When the
    node-list file cannot be read, the pass only logs the warning: no
    catch-up refresh, no snapshot, no sleep, and the counter stays at 60.
    Three such passes in a row leave three warnings and nothing else. *)
Theorem refresh_failure_skips_rest_of_pass :
  loop_body (lib := Reference.lib) (Demo.fs None) Demo.peer 8108
    Demo.nodes_path 60
  = ([LOG WARNING
        [Str "Error while refreshing peer configuration: ";
         Str "Error reading file containing nodes configuration: File does not exist at: /etc/typesense/nodes"]],
     Done 60)
  /\ loop_body (lib := Reference.lib) (Demo.fs (Some Demo.three_nodes))
       Demo.peer 8108 Demo.nodes_path 60
     = ([ReplicationState_refresh_nodes Demo.three_nodes;
         ReplicationState_refresh_catchup_status false;
         ReplicationState_do_snapshot; sleep 1],
        Done 61)
  /\ maintenance_loop (lib := Reference.lib) Demo.flaky 10 Demo.peer 8108
       Demo.nodes_path 0 0
     = (repeat
          (LOG WARNING
             [Str "Error while refreshing peer configuration: ";
              Str "Error reading file containing nodes configuration: File does not exist at: /etc/typesense/nodes"])
          3,
        Done 0).
Proof.
  split; [vm_compute; reflexivity |].
  split; vm_compute; reflexivity.
Qed.

(* ------------------------------------------------------------------ *)
(** ** Network identity resolver *)

Section Resolver.

Context {lib : Lib}.

Lemma eligible_cons (netip netbits : Z) (ifa : ifaddrs) (rest : list ifaddrs) :
  eligible netip netbits (ifa :: rest) =
  (filter (fun a => if constrained netip netbits
                    then in_subnet netip netbits a else true)
          (filter (fun a => is_private_ip (ntohl a)) (ipv4_of ifa))
   ++ eligible netip netbits rest)%list.
Proof.
  unfold eligible, private_addrs. simpl flat_map.
  now rewrite !filter_app.
Qed.

(** The scan returns the first eligible address, if there is one. *)
Lemma scan_interfaces_outcome (netip netbits : Z) (ifap : list ifaddrs) :
  outcome_of (scan_interfaces netip netbits ifap)
  = Done (hd_error (eligible netip netbits ifap)).
Proof.
  induction ifap as [| ifa rest IH]; [reflexivity |].
  rewrite eligible_cons. unfold ipv4_of. cbn [scan_interfaces].
  destruct (ifa_addr ifa) as [sa |]; [| exact IH].
  destruct (sa_family sa =? AF_INET); [| exact IH].
  cbn [filter].
  destruct (is_private_ip (ntohl (sin_addr sa))); [| exact IH].
  cbn [filter app]. fold (constrained netip netbits).
  destruct (constrained netip netbits); [| reflexivity].
  unfold in_subnet.
  destruct (subnet_mismatch netip netbits (sin_addr sa)); cbn [negb app].
  - rewrite outcome_bind. exact IH.
  - reflexivity.
Qed.

Lemma scan_interfaces_logs (netip netbits : Z) (ifap : list ifaddrs) :
  forallb is_log (trace_of (scan_interfaces netip netbits ifap)) = true.
Proof.
  induction ifap as [| ifa rest IH]; [reflexivity |].
  cbn [scan_interfaces].
  destruct (ifa_addr ifa) as [sa |]; [| exact IH].
  destruct (sa_family sa =? AF_INET); [| exact IH].
  destruct (is_private_ip (ntohl (sin_addr sa))); [| exact IH].
  destruct (negb (netip =? 0) && negb (netbits =? 0)); [| reflexivity].
  destruct (subnet_mismatch netip netbits (sin_addr sa)); [| reflexivity].
  rewrite bind_emit. simpl. exact IH.
Qed.

Lemma scan_interfaces_eta (netip netbits : Z) (ifap : list ifaddrs) :
  scan_interfaces netip netbits ifap
  = (trace_of (scan_interfaces netip netbits ifap),
     Done (hd_error (eligible netip netbits ifap))).
Proof.
  rewrite (M_eta (scan_interfaces _ _ _)) at 1.
  now rewrite scan_interfaces_outcome.
Qed.

(** What [get_internal_ip] returns: the first eligible address printed
    by [inet_ntoa], the loopback literal when there is none. *)
Lemma get_internal_ip_outcome (ifap : list ifaddrs) (cidr : string)
    (netip netbits : Z) :
  parse_subnet cidr = (netip, netbits) ->
  outcome_of (get_internal_ip ifap cidr)
  = Done (match eligible netip netbits ifap with
          | a :: _ => inet_ntoa a
          | [] => "127.0.0.1"
          end).
Proof.
  intros Hp. unfold get_internal_ip. rewrite Hp.
  rewrite outcome_bind.
  assert (exists u, outcome_of
            (when (negb (netip =? 0) && negb (netbits =? 0))
               (emit (LOG INFO [Str "Using subnet ip: "; Num netip;
                                Str ", bits: "; Num netbits]))) = Done u)
    as [u ->]
    by (destruct (negb (netip =? 0) && negb (netbits =? 0)); simpl; eauto).
  rewrite outcome_bind, scan_interfaces_outcome.
  destruct (eligible netip netbits ifap); reflexivity.
Qed.

Lemma get_internal_ip_logs (ifap : list ifaddrs) (cidr : string) :
  forallb is_log (trace_of (get_internal_ip ifap cidr)) = true.
Proof.
  unfold get_internal_ip. destruct (parse_subnet cidr) as [netip netbits].
  rewrite trace_bind, forallb_app. apply andb_true_iff. split.
  - destruct (negb (netip =? 0) && negb (netbits =? 0)); reflexivity.
  - destruct (outcome_of (when _ _)); try reflexivity.
    rewrite trace_bind, forallb_app, scan_interfaces_logs,
      scan_interfaces_outcome.
    destruct (hd_error _); reflexivity.
Qed.

Lemma get_internal_ip_done (ifap : list ifaddrs) (cidr : string) :
  exists s, outcome_of (get_internal_ip ifap cidr) = Done s.
Proof.
  destruct (parse_subnet cidr) as [netip netbits] eqn:E.
  rewrite (get_internal_ip_outcome ifap cidr _ _ E). eauto.
Qed.

Lemma eligible_incl (netip netbits : Z) (ifap : list ifaddrs) (a : Z) :
  In a (eligible netip netbits ifap) ->
  In a (private_addrs ifap)
  /\ (constrained netip netbits = true -> in_subnet netip netbits a = true).
Proof.
  unfold eligible. intros [Hin Hq]%filter_In. split; [exact Hin |].
  intros Hc. now rewrite Hc in Hq.
Qed.

(** Membership in [private_addrs]: the address of an [AF_INET] entry of
    the interface list that passes [is_private_ip]. *)
Lemma private_addrs_spec (ifap : list ifaddrs) (a : Z) :
  In a (private_addrs ifap) <->
  (exists ifa sa, In ifa ifap /\ ifa_addr ifa = Some sa
                  /\ sa_family sa = AF_INET /\ sin_addr sa = a)
  /\ is_private_ip (ntohl a) = true.
Proof.
  unfold private_addrs. rewrite filter_In, in_flat_map.
  split; intros [H Hp]; (split; [| exact Hp]).
  - destruct H as (ifa & Hin & Ha). unfold ipv4_of in Ha.
    destruct (ifa_addr ifa) as [sa |] eqn:E; [| contradiction].
    destruct (Z.eqb_spec (sa_family sa) AF_INET) as [Hf | Hf];
      [| contradiction].
    destruct Ha as [Ha | []]. exists ifa, sa. auto.
  - destruct H as (ifa & sa & Hin & E & Hf & Ha). exists ifa. split; [exact Hin |].
    unfold ipv4_of. rewrite E, Hf, Z.eqb_refl. now left.
Qed.

(** C3, as the code has it.  With a constraint in force ([netip] and
    [netbits] both non-zero, prefix length at most 32) the resolver
    returns a private address inside the subnet when the interfaces have
    one, and the loopback literal when they have none (other private
    addresses are not considered).  Without a constraint it returns the
    first private address, or the loopback literal when there is none.
    What it returns is always the loopback literal or a private address
    of the interface list. *)
Theorem get_internal_ip_selection (ifap : list ifaddrs) (cidr : string)
    (netip netbits : Z) :
  parse_subnet cidr = (netip, netbits) ->
  let r := outcome_of (get_internal_ip ifap cidr) in
  (constrained netip netbits = true -> netbits <= 32 ->
   (exists a, In a (private_addrs ifap) /\ in_subnet netip netbits a = true) ->
   exists a, r = Done (inet_ntoa a) /\ In a (private_addrs ifap)
             /\ in_subnet netip netbits a = true)
  /\ (constrained netip netbits = true -> netbits <= 32 ->
      (forall a, In a (private_addrs ifap) ->
                 in_subnet netip netbits a = false) ->
      r = Done "127.0.0.1")
  /\ (constrained netip netbits = false ->
      r = Done (match private_addrs ifap with
                | a :: _ => inet_ntoa a
                | [] => "127.0.0.1"
                end))
  /\ (r = Done "127.0.0.1"
      \/ exists a, r = Done (inet_ntoa a) /\ In a (private_addrs ifap)).
Proof.
  intros Hp r. subst r. rewrite (get_internal_ip_outcome ifap cidr _ _ Hp).
  split; [| split; [| split]].
  - intros Hc _ (a & Hin & Hs).
    destruct (eligible netip netbits ifap) as [| b rest] eqn:E.
    + exfalso. assert (In a (eligible netip netbits ifap)) as H.
      { unfold eligible. apply filter_In. split; [exact Hin |].
        now rewrite Hc. }
      now rewrite E in H.
    + exists b. split; [reflexivity |].
      assert (In b (eligible netip netbits ifap)) as H
        by (rewrite E; now left).
      apply eligible_incl in H. destruct H as [H1 H2]. auto.
  - intros Hc _ Hnone.
    destruct (eligible netip netbits ifap) as [| b rest] eqn:E;
      [reflexivity |].
    exfalso. assert (In b (eligible netip netbits ifap)) as H
      by (rewrite E; now left).
    apply eligible_incl in H. destruct H as [H1 H2].
    rewrite (Hnone b H1) in H2. specialize (H2 Hc). discriminate.
  - intros Hc. unfold eligible. rewrite Hc.
    assert (forall l : list Z, filter (fun _ => true) l = l) as Hid
      by (induction l; simpl; congruence).
    now rewrite Hid.
  - destruct (eligible netip netbits ifap) as [| b rest] eqn:E;
      [now left | right].
    exists b. split; [reflexivity |].
    assert (In b (eligible netip netbits ifap)) as H
      by (rewrite E; now left).
    now apply eligible_incl in H.
Qed.

End Resolver.

(* ------------------------------------------------------------------ *)
(** ** The subnet test is a comparison of prefixes *)

Lemma subnet_mask_value {lib : Lib} (n : Z) :
  0 < n <= 32 -> subnet_mask n = 2 ^ 32 - 2 ^ (32 - n).
Proof.
  intros Hn. unfold subnet_mask, shl32, uint32.
  rewrite (Z.mod_small (32 - n)) by lia.
  rewrite Z.shiftl_mul_pow2 by lia.
  assert (1 <= 2 ^ (32 - n) <= 2 ^ 31) as Hp.
  { split.
    - apply (Z.pow_le_mono_r 2 0 (32 - n)); lia.
    - apply Z.pow_le_mono_r; lia. }
  set (p := 2 ^ (32 - n)) in *.
  symmetry. apply (Z.mod_unique _ _ (p - 1)); lia.
Qed.

Lemma land_high_mask (x s : Z) :
  0 <= s < 32 -> 0 <= x < 2 ^ 32 ->
  Z.land x (2 ^ 32 - 2 ^ s) = x / 2 ^ s * 2 ^ s.
Proof.
  intros Hs Hx.
  replace (2 ^ 32 - 2 ^ s) with (Z.shiftl (Z.ones (32 - s)) s).
  2:{ rewrite Z.shiftl_mul_pow2, Z.ones_equiv by lia.
      rewrite <- Z.sub_1_r, Z.mul_sub_distr_r, <- Z.pow_add_r by lia.
      replace (32 - s + s) with 32 by lia. now rewrite Z.mul_1_l. }
  rewrite <- Z.shiftr_div_pow2, <- Z.shiftl_mul_pow2 by lia.
  apply Z.bits_inj'. intros i Hi.
  rewrite Z.land_spec, !Z.shiftl_spec by lia.
  destruct (Z.ltb_spec i s) as [Hlt | Hge].
  - rewrite (Z.testbit_neg_r (Z.ones _) (i - s)) by lia.
    rewrite (Z.testbit_neg_r (Z.shiftr _ _) (i - s)) by lia.
    apply andb_false_r.
  - rewrite Z.shiftr_spec by lia. replace (i - s + s) with i by lia.
    destruct (Z.ltb_spec i 32) as [H32 | H32].
    + rewrite Z.ones_spec_low by lia. apply andb_true_r.
    + rewrite Z.ones_spec_high by lia. rewrite andb_false_r. symmetry.
      destruct (Z.eq_dec x 0) as [-> | Hnz]; [apply Z.bits_0 |].
      apply Z.bits_above_log2; [lia |].
      apply Z.lt_le_trans with 32; [| exact H32].
      apply Z.log2_lt_pow2; lia.
Qed.

Lemma in_subnet_prefix {lib : Lib} (netip netbits a : Z) :
  0 < netbits <= 32 ->
  0 <= ntohl netip < 2 ^ 32 -> 0 <= ntohl a < 2 ^ 32 ->
  in_subnet netip netbits a = true
  <-> ntohl netip / 2 ^ (32 - netbits) = ntohl a / 2 ^ (32 - netbits).
Proof.
  intros Hn Hi Ha. unfold in_subnet, subnet_mismatch.
  rewrite negb_involutive, Z.eqb_eq, subnet_mask_value by exact Hn.
  rewrite !land_high_mask by lia.
  assert (0 < 2 ^ (32 - netbits)) by (apply Z.pow_pos_nonneg; lia).
  split; [intros H0 | intros ->; reflexivity].
  apply Z.mul_cancel_r in H0; lia.
Qed.

Lemma get_internal_ip_selection_witness :
  exists a,
    outcome_of (get_internal_ip (lib := Reference.lib) Demo.two_nics
                  "10.0.0.0/8")
    = Done (inet_ntoa (Lib := Reference.lib) a)
    /\ In a (private_addrs (lib := Reference.lib) Demo.two_nics)
    /\ in_subnet (lib := Reference.lib) 10 8 a = true.
Proof.
  destruct (get_internal_ip_selection (lib := Reference.lib) Demo.two_nics
              "10.0.0.0/8" 10 8 eq_refl) as (H & _).
  apply H; [reflexivity | lia |].
  exists (Reference.inet_addr 10 1 2 3).
  split; [right; left; reflexivity | reflexivity].
Defined.

(** C3 as the specification words it does not hold: with the constraint
    10.0.0.0/8 and 192.168.1.5 as the only private address, the resolver
    returns the loopback literal, not the private address outside the
    subnet. *)
Lemma constrained_resolver_skips_other_private_addresses :
  parse_subnet (lib := Reference.lib) "10.0.0.0/8" = (10, 8)
  /\ private_addrs (lib := Reference.lib) Demo.one_nic
     = [Reference.inet_addr 192 168 1 5]
  /\ in_subnet (lib := Reference.lib) 10 8 (Reference.inet_addr 192 168 1 5)
     = false
  /\ outcome_of (get_internal_ip (lib := Reference.lib) Demo.one_nic
                   "10.0.0.0/8") = Done "127.0.0.1"
  /\ ~ (exists a,
          In a (private_addrs (lib := Reference.lib) Demo.one_nic)
          /\ outcome_of (get_internal_ip (lib := Reference.lib) Demo.one_nic
                           "10.0.0.0/8")
             = Done (inet_ntoa (Lib := Reference.lib) a)).
Proof.
  split; [reflexivity |]. split; [reflexivity |]. split; [reflexivity |].
  split; [reflexivity |].
  intros (a & Hin & Heq).
  destruct Hin as [<- | []].
  vm_compute in Heq. discriminate Heq.
Qed.

(* ------------------------------------------------------------------ *)
(** ** The maintenance loop and the peering thread *)

Lemma filter_none {A} (p q : A -> bool) (l : list A) :
  forallb p l = true -> (forall x, p x = true -> q x = false) ->
  filter q l = [].
Proof.
  intros Hall Hpq. induction l as [| x l IH]; [reflexivity |].
  simpl in Hall. apply andb_true_iff in Hall. destruct Hall as [Hx Hl].
  simpl. rewrite (Hpq x Hx). auto.
Qed.

Section Loop.

Context {lib : Lib}.
Variables (w : World) (peering_endpoint : EndPoint) (api_port : Z)
          (path_to_nodes : string).

Lemma loop_body_eta (fs : FileSystem) (t : Z) :
  exists tr c,
    loop_body fs peering_endpoint api_port path_to_nodes t = (tr, Done c)
    /\ forallb is_maintenance tr = true.
Proof.
  destruct (loop_body_done fs peering_endpoint api_port path_to_nodes t)
    as [c Hc].
  exists (trace_of (loop_body fs peering_endpoint api_port path_to_nodes t)), c.
  split; [| apply loop_body_maintenance].
  rewrite <- Hc. apply M_eta.
Qed.

(** The loop never calls [exit], and what it emits is maintenance. *)
Lemma maintenance_loop_shape (fuel k : nat) (c : Z) :
  forallb is_maintenance
    (trace_of (maintenance_loop w fuel peering_endpoint api_port
                 path_to_nodes k c)) = true
  /\ forall s, outcome_of (maintenance_loop w fuel peering_endpoint api_port
                             path_to_nodes k c) <> Exit s.
Proof.
  revert k c. induction fuel as [| fuel IH]; intros k c; cbn [maintenance_loop].
  - split; [reflexivity | discriminate].
  - destruct (loop_condition w k); [| split; [reflexivity | discriminate]].
    destruct (loop_body_eta (fs_at w k) c) as (tr & c' & -> & Htr).
    rewrite (bind_done _ _ tr c' eq_refl).
    cbn [trace_of outcome_of fst snd].
    destruct (IH (S k) c') as [H1 H2].
    split; [| exact H2].
    rewrite forallb_app, Htr. exact H1.
Qed.

(** Once the loop condition is false at evaluation [k + n], the loop
    started at evaluation [k] returns for every [fuel > n], and with the
    same result. *)
Lemma maintenance_loop_exits (n : nat) :
  forall (k : nat) (c : Z),
    loop_condition w (k + n) = false ->
    exists tr c',
      forall fuel, (n < fuel)%nat ->
        maintenance_loop w fuel peering_endpoint api_port path_to_nodes k c
        = (tr, Done c').
Proof.
  induction n as [| n IH]; intros k c Hq.
  - rewrite Nat.add_0_r in Hq. exists [], c. intros fuel Hf.
    destruct fuel as [| fuel]; [lia |].
    cbn [maintenance_loop]. now rewrite Hq.
  - destruct (loop_condition w k) eqn:Hk.
    + destruct (loop_body_eta (fs_at w k) c) as (tr & c' & Hb & _).
      destruct (IH (S k) c') as (tr' & c'' & Hrest).
      { now replace (S k + n)%nat with (k + S n)%nat by lia. }
      exists (tr ++ tr')%list, c''. intros fuel Hf.
      destruct fuel as [| fuel]; [lia |].
      cbn [maintenance_loop]. rewrite Hk.
      rewrite (bind_done _ _ tr c' Hb), Hrest by lia. reflexivity.
    + exists [], c. intros fuel Hf.
      destruct fuel as [| fuel]; [lia |].
      cbn [maintenance_loop]. now rewrite Hk.
Qed.

End Loop.

Lemma log_not_teardown e : is_log e = true -> is_teardown e = false.
Proof. destruct e; simpl; congruence. Qed.

Lemma log_not_spawn e : is_log e = true -> is_spawn e = false.
Proof. destruct e; simpl; congruence. Qed.

Lemma maintenance_not_teardown e :
  is_maintenance e = true -> is_teardown e = false.
Proof. destruct e; simpl; congruence. Qed.

Lemma maintenance_not_spawn e :
  is_maintenance e = true -> is_spawn e = false.
Proof. destruct e; simpl; congruence. Qed.

Section Bootstrap.

Context {lib : Lib}.
Variable w : World.

Lemma resolve_peering_ip_eta (peering_address peering_subnet : string) :
  exists tr conv,
    resolve_peering_ip w peering_address peering_subnet = (tr, Done conv)
    /\ forallb is_log tr = true.
Proof.
  unfold resolve_peering_ip.
  destruct (empty peering_address); cbn [negb].
  - destruct (get_internal_ip_done (getifaddrs w) peering_subnet) as [s Hs].
    pose proof (get_internal_ip_logs (getifaddrs w) peering_subnet) as Hl.
    destruct (get_internal_ip (getifaddrs w) peering_subnet) as [t o].
    cbn [trace_of outcome_of fst snd] in Hs, Hl. subst o.
    eexists _, _. split; [reflexivity |].
    now rewrite app_nil_r.
  - eexists _, _. split; reflexivity.
Qed.

End Bootstrap.

Section RaftThread.

Context {lib : Lib}.
Variables (w : World) (config : Config) (state_dir : string).

(** Every path through the body of the peering thread. *)
Lemma raft_thread_body_paths (fuel : nat) :
  let r := raft_thread_body w config state_dir fuel in
  match boot_nodes w config with
  | Error _ err =>
      r = ([thread_ctor batch_indexing_thread; LOG ERROR [Str err]],
           Exit (-1))
  | Ok nodes =>
      match resolved_peering_ip w config with
      | None =>
          outcome_of r = Done tt
          /\ teardown (trace_of r)
             = [BatchedIndexer_stop; thread_join batch_indexing_thread;
                ThreadPool_shutdown server_thread_pool;
                ThreadPool_shutdown app_thread_pool; HttpServer_stop]
          /\ In (LOG ERROR [Str "Failed to parse peering address `";
                            Str (get_peering_address config); Str "`"])
                (trace_of r)
      | Some peering_ip =>
          if negb (add_service_rc w =? 0) then
            outcome_of r = Exit (-1)
            /\ In (LOG ERROR [Str "Failed to add peering service"])
                  (trace_of r)
          else if negb (Start_rc w =? 0) then
            outcome_of r = Exit (-1)
            /\ In (LOG ERROR [Str "Failed to start peering service"])
                  (trace_of r)
          else if negb (ReplicationState_start_rc w =? 0) then
            outcome_of r = Exit (-1)
            /\ In (LOG ERROR [Str "Failed to start peering state"])
                  (trace_of r)
          else
            match outcome_of
                    (maintenance_loop w fuel
                       {| ip := peering_ip; port := get_peering_port config |}
                       (get_api_port config) (get_nodes config) 0 0) with
            | Done _ =>
                outcome_of r = Done tt
                /\ teardown (trace_of r)
                   = [ReplicationState_shutdown; raft_server_Stop;
                      raft_server_Join;
                      BatchedIndexer_stop; thread_join batch_indexing_thread;
                      ThreadPool_shutdown server_thread_pool;
                      ThreadPool_shutdown app_thread_pool; HttpServer_stop]
            | _ => outcome_of r = Spin
            end
      end
  end.
Proof.
  intros r. subst r.
  unfold raft_thread_body, start_raft_server, boot_nodes, resolved_peering_ip.
  rewrite bind_emit.
  destruct (fetch_nodes_config (boot_fs w) (get_nodes config))
    as [nodes | code err] eqn:Hn.
  2:{ destruct (empty (get_nodes config)) eqn:He.
      - unfold fetch_nodes_config in Hn. rewrite He in Hn. discriminate.
      - reflexivity. }
  destruct (resolve_peering_ip_eta w (get_peering_address config)
              (get_peering_subnet config)) as (tr_r & conv & Hr & Hlog).
  rewrite Hr. cbn [outcome_of snd].
  pose proof (filter_none is_log is_teardown tr_r Hlog log_not_teardown)
    as Hrt.
  destruct (empty (get_nodes config)); run_trace.
  all: destruct conv as [peering_ip |]; run_trace.
  all: try solve [split; [reflexivity |];
                  split; [project_trace; now rewrite Hrt | find_event]].
  all: destruct (add_service_rc w =? 0); run_trace;
    try solve [split; [reflexivity | find_event]].
  all: destruct (Start_rc w =? 0); run_trace;
    try solve [split; [reflexivity | find_event]].
  all: destruct (ReplicationState_start_rc w =? 0); run_trace;
    try solve [split; [reflexivity | find_event]].
  all: pose proof (maintenance_loop_shape w
                     {| ip := peering_ip; port := get_peering_port config |}
                     (get_api_port config) (get_nodes config) fuel 0 0)
         as [Hm Hx].
  all: destruct (maintenance_loop w fuel _ _ _ 0%nat 0) as [tr_l [c | s |]];
    run_trace; try solve [now elim (Hx s) | reflexivity].
  all: cbn [trace_of fst] in Hm.
  all: pose proof (filter_none is_maintenance is_teardown tr_l Hm
                     maintenance_not_teardown) as Hlt.
  all: split; [reflexivity |]; project_trace; rewrite Hrt, Hlt; reflexivity.
Qed.

End RaftThread.

(* ------------------------------------------------------------------ *)
(** ** The calling thread *)

Section Orchestrator.

Context {lib : Lib}.
Variables (w : World) (config : Config) (version : string).

Lemma setup_without_data_dir :
  directory_exists (boot_fs w) (get_data_dir config) = false ->
  outcome_of (run_server_setup w config version) = Done (inl 1)
  /\ filter is_spawn (trace_of (run_server_setup w config version)) = [].
Proof.
  intros Hd. unfold run_server_setup. rewrite Hd.
  destruct (using_jemalloc w); run_trace; split; reflexivity.
Qed.

Lemma setup_with_master :
  directory_exists (boot_fs w) (get_data_dir config) = true ->
  get_master config <> "" ->
  outcome_of (run_server_setup w config version) = Done (inl 1)
  /\ filter is_spawn (trace_of (run_server_setup w config version)) = [].
Proof.
  intros Hd Hm%empty_false. unfold run_server_setup. rewrite Hd, Hm.
  destruct (using_jemalloc w); run_trace; split; reflexivity.
Qed.

Lemma setup_passes :
  directory_exists (boot_fs w) (get_data_dir config) = true ->
  get_master config = "" ->
  exists pre,
    run_server_setup w config version
    = (pre, Done (inr (get_data_dir config ++ "/state")))
    /\ filter is_spawn pre
       = [ThreadPool_ctor app_thread_pool (num_threads w config);
          ThreadPool_ctor server_thread_pool (num_threads w config)]
    /\ disposal pre = [].
Proof.
  intros Hd Hm%empty_true. unfold run_server_setup. rewrite Hd, Hm.
  destruct (using_jemalloc w),
    (empty (get_search_only_api_key config)); run_trace;
    (eexists; split; [reflexivity |]); split; reflexivity.
Qed.

(** [run_server] once the set-up has passed, by outcome of the peering
    thread. *)
Lemma run_server_after_setup (fuel : nat) :
  directory_exists (boot_fs w) (get_data_dir config) = true ->
  get_master config = "" ->
  let r := raft_thread_body w config (get_data_dir config ++ "/state") fuel in
  let run := run_server w config version fuel in
  raft_trace run = trace_of r
  /\ status run = match outcome_of r with
                  | Done _ => Done (HttpServer_run_rc w)
                  | Exit s => Exit s
                  | Spin => Spin
                  end
  /\ filter is_spawn (main_trace run)
     = [ThreadPool_ctor app_thread_pool (num_threads w config);
        ThreadPool_ctor server_thread_pool (num_threads w config);
        thread_ctor raft_thread]
  /\ (forall u, outcome_of r = Done u ->
        disposal (main_trace run)
        = [thread_join raft_thread; BatchedIndexer_dtor; curl_global_cleanup;
           HttpServer_dtor; CollectionManager_dispose]
        /\ In HttpServer_run (main_trace run)).
Proof.
  intros Hd Hm r run. subst r run. unfold run_server.
  destruct (setup_passes Hd Hm) as (pre & -> & Hsp & Hdi).
  destruct (raft_thread_body w config (get_data_dir config ++ "/state") fuel)
    as [rt [u | s |]]; cbn [trace_of outcome_of fst snd raft_trace status main_trace].
  - split; [reflexivity |]. split; [reflexivity |].
    unfold enter_api_loop, leave_api_loop. run_trace.
    split.
    + rewrite !filter_app, Hsp. reflexivity.
    + intros _ _. split.
      * unfold disposal in *. rewrite !filter_app, Hdi. reflexivity.
      * find_event.
  - split; [reflexivity |]. split; [reflexivity |].
    split; [| discriminate].
    rewrite !filter_app, Hsp. reflexivity.
  - split; [reflexivity |]. split; [reflexivity |].
    split; [| discriminate].
    unfold enter_api_loop. run_trace.
    rewrite !filter_app, Hsp. reflexivity.
Qed.

End Orchestrator.

(* ------------------------------------------------------------------ *)
(** ** The quit flag *)

Lemma fire_keeps_quit (st : SignalState) (t : trigger) :
  quit_raft_service st = true -> quit_raft_service (fire st t) = true.
Proof.
  intros H. unfold fire. destruct t as [sig |]; cbn [deliver];
    [| reflexivity].
  destruct (sigaction st sig); [reflexivity | exact H].
Qed.

Lemma fold_fire_keeps_quit (l : list trigger) (st : SignalState) :
  quit_raft_service st = true ->
  quit_raft_service (fold_left fire l st) = true.
Proof.
  revert st. induction l as [| t l IH]; intros st H; [exact H |].
  cbn [fold_left]. apply IH. now apply fire_keeps_quit.
Qed.

Lemma triggers_upto_S (w : World) (k : nat) :
  triggers_upto w (S k) = (triggers_upto w k ++ schedule w (S k))%list.
Proof.
  unfold triggers_upto. rewrite (seq_S (S k) 0), flat_map_app.
  cbn [flat_map Nat.add]. now rewrite app_nil_r.
Qed.

Lemma quit_load_S (w : World) (k : nat) :
  quit_raft_service_load w k = true ->
  quit_raft_service_load w (S k) = true.
Proof.
  unfold quit_raft_service_load, signals_at. intros H.
  rewrite triggers_upto_S, fold_left_app.
  now apply fold_fire_keeps_quit.
Qed.

Lemma quit_load_mono (w : World) (k j : nat) :
  (k <= j)%nat ->
  quit_raft_service_load w k = true -> quit_raft_service_load w j = true.
Proof.
  induction 1 as [| j _ IH]; [auto |].
  intros H. apply quit_load_S. auto.
Qed.

Lemma fire_signal_twice (st : SignalState) (sig : Z) :
  fire (fire st (Signal sig)) (Signal sig) = fire st (Signal sig).
Proof.
  unfold fire. cbn [deliver]. destruct (sigaction st sig) eqn:E.
  - cbn [catch_interrupt snd sigaction]. now rewrite Z.eqb_refl.
  - cbn [snd]. now rewrite E.
Qed.

Lemma loop_condition_quit (w : World) (k : nat) :
  quit_raft_service_load w k = true -> loop_condition w k = false.
Proof. unfold loop_condition. intros ->. apply andb_false_r. Qed.

(* ------------------------------------------------------------------ *)
(** ** Shutdown *)

Section Shutdown.

Context {lib : Lib}.
Variables (w : World) (config : Config).

(** C1, as the code has it.  Whenever the body of the peering thread
    runs to its end, its teardown calls are, in this order: replication
    state shutdown, peering listener stop and join (these three inside
    [start_raft_server], and only when the peering address resolved),
    and only after that batch indexer stop, join of the indexing thread,
    shutdown of the request pool, shutdown of the application pool, API
    server stop. *)
Theorem peering_thread_teardown_order (state_dir : string) (fuel : nat) :
  outcome_of (raft_thread_body w config state_dir fuel) = Done tt ->
  teardown (trace_of (raft_thread_body w config state_dir fuel))
  = ((match resolved_peering_ip w config with
      | Some _ => [ReplicationState_shutdown; raft_server_Stop;
                   raft_server_Join]
      | None => []
      end)
     ++ [BatchedIndexer_stop; thread_join batch_indexing_thread;
         ThreadPool_shutdown server_thread_pool;
         ThreadPool_shutdown app_thread_pool; HttpServer_stop])%list.
Proof.
  intros Hdone.
  pose proof (raft_thread_body_paths w config state_dir fuel) as P.
  cbv zeta in P.
  destruct (boot_nodes w config) as [nodes | code err].
  2:{ rewrite P in Hdone. discriminate. }
  destruct (resolved_peering_ip w config) as [peering_ip |].
  2:{ now destruct P as (_ & -> & _). }
  destruct (negb (add_service_rc w =? 0)).
  { destruct P as [P _]. congruence. }
  destruct (negb (Start_rc w =? 0)).
  { destruct P as [P _]. congruence. }
  destruct (negb (ReplicationState_start_rc w =? 0)).
  { destruct P as [P _]. congruence. }
  destruct (outcome_of (maintenance_loop w fuel _ _ _ 0%nat 0));
    [| congruence | congruence].
  now destruct P as [_ ->].
Qed.

(** The body of the peering thread depends on [fuel] only through the
    maintenance loop. *)
Lemma raft_thread_body_fuel (state_dir : string) (f1 f2 : nat) :
  (forall peering_ip,
     resolved_peering_ip w config = Some peering_ip ->
     maintenance_loop w f1
       {| ip := peering_ip; port := get_peering_port config |}
       (get_api_port config) (get_nodes config) 0 0
     = maintenance_loop w f2
         {| ip := peering_ip; port := get_peering_port config |}
         (get_api_port config) (get_nodes config) 0 0) ->
  raft_thread_body w config state_dir f1
  = raft_thread_body w config state_dir f2.
Proof.
  unfold resolved_peering_ip, raft_thread_body, start_raft_server.
  intros H.
  destruct (fetch_nodes_config (boot_fs w) (get_nodes config));
    [| reflexivity].
  destruct (resolve_peering_ip w (get_peering_address config)
              (get_peering_subnet config)) as [tr_r [[peering_ip |] | s |]];
    cbn [outcome_of snd] in H.
  2-4: destruct (empty (get_nodes config)); reflexivity.
  specialize (H peering_ip eq_refl).
  destruct (empty (get_nodes config)); run_trace.
  all: destruct (add_service_rc w =? 0); run_trace; [| reflexivity].
  all: destruct (Start_rc w =? 0); run_trace; [| reflexivity].
  all: destruct (ReplicationState_start_rc w =? 0); run_trace;
         [| reflexivity].
  all: now rewrite H.
Qed.

End Shutdown.

(* ------------------------------------------------------------------ *)
(** ** Start-up failures and exit statuses *)

Section Startup.

Context {lib : Lib}.
Variables (w : World) (config : Config) (version : string) (fuel : nat).

(** C6, as the code has it.  A configured node-list file that exists
    and is empty makes the process call [exit(-1)] after logging the
    empty-configuration error; this happens on the peering thread, when
    both worker pools, the peering thread and the indexing thread have
    already been created. *)
Theorem empty_nodes_file_aborts_on_peering_thread :
  directory_exists (boot_fs w) (get_data_dir config) = true ->
  get_master config = "" ->
  get_nodes config <> "" ->
  file_exists (boot_fs w) (get_nodes config) = true ->
  read_stream (boot_fs w) (get_nodes config) = "" ->
  let run := run_server w config version fuel in
  status run = Exit (-1)
  /\ raft_trace run
     = [thread_ctor batch_indexing_thread;
        LOG ERROR [Str "File containing nodes configuration is empty."]]
  /\ filter is_spawn (main_trace run)
     = [ThreadPool_ctor app_thread_pool (num_threads w config);
        ThreadPool_ctor server_thread_pool (num_threads w config);
        thread_ctor raft_thread].
Proof.
  intros Hd Hm Hp Hx Hc run. subst run.
  pose proof (run_server_after_setup w config version fuel Hd Hm) as R.
  cbv zeta in R. destruct R as (Rt & Rs & Rsp & _).
  pose proof (raft_thread_body_paths w config
                (get_data_dir config ++ "/state") fuel) as P.
  cbv zeta in P. unfold boot_nodes in P.
  apply empty_false in Hp.
  unfold fetch_nodes_config, fetch_file_contents in P.
  rewrite Hp, Hx, Hc in P. cbn [negb empty] in P.
  rewrite P in Rt, Rs. cbn [trace_of outcome_of fst snd] in Rt, Rs.
  auto.
Qed.

(** C9.  [run_server] returns 1 when the data directory is missing and
    when the master option is set; [init_root_logger] returns 1 when the
    configured log directory is missing; a failure to add the peering
    service, to start the peering listener or to start the replication
    state ends the process through [exit(-1)]; and when the peering
    thread has run to its end and the API loop has returned 0,
    [run_server] returns 0. *)
Theorem exit_status_mapping :
  let run := run_server w config version fuel in
  let started :=
    directory_exists (boot_fs w) (get_data_dir config) = true
    /\ get_master config = ""
    /\ ok (boot_nodes w config) = true
    /\ resolved_peering_ip w config <> None in
  (directory_exists (boot_fs w) (get_data_dir config) = false ->
   status run = Done 1)
  /\ (directory_exists (boot_fs w) (get_data_dir config) = true ->
      get_master config <> "" -> status run = Done 1)
  /\ (forall fs, get_log_dir config <> "" ->
                 directory_exists fs (get_log_dir config) = false ->
                 outcome_of (init_root_logger fs config) = Done 1)
  /\ (started -> add_service_rc w <> 0 -> status run = Exit (-1))
  /\ (started -> add_service_rc w = 0 -> Start_rc w <> 0 ->
      status run = Exit (-1))
  /\ (started -> add_service_rc w = 0 -> Start_rc w = 0 ->
      ReplicationState_start_rc w <> 0 -> status run = Exit (-1))
  /\ (directory_exists (boot_fs w) (get_data_dir config) = true ->
      get_master config = "" ->
      outcome_of (raft_thread_body w config
                    (get_data_dir config ++ "/state") fuel) = Done tt ->
      HttpServer_run_rc w = 0 -> status run = Done 0).
Proof.
  intros run started. subst run started.
  assert (forall s,
            directory_exists (boot_fs w) (get_data_dir config) = true ->
            get_master config = "" ->
            outcome_of (raft_thread_body w config
                          (get_data_dir config ++ "/state") fuel) = Exit s ->
            status (run_server w config version fuel) = Exit s) as Hexit.
  { intros s Hd Hm He.
    pose proof (run_server_after_setup w config version fuel Hd Hm) as R.
    cbv zeta in R. destruct R as (_ & -> & _). now rewrite He. }
  pose proof (raft_thread_body_paths w config
                (get_data_dir config ++ "/state") fuel) as P.
  cbv zeta in P.
  split; [| split; [| split; [| split; [| split; [| split]]]]].
  - intros Hd. unfold run_server.
    destruct (setup_without_data_dir w config version Hd) as [Ho _].
    destruct (run_server_setup w config version) as [pre o].
    cbn [outcome_of snd] in Ho. now subst o.
  - intros Hd Hm. unfold run_server.
    destruct (setup_with_master w config version Hd Hm) as [Ho _].
    destruct (run_server_setup w config version) as [pre o].
    cbn [outcome_of snd] in Ho. now subst o.
  - intros fs Hl%empty_false Hx. unfold init_root_logger.
    rewrite Hl, Hx. reflexivity.
  - intros (Hd & Hm & Hn & Hr) Ha. apply Hexit; try assumption.
    destruct (boot_nodes w config); [| discriminate].
    destruct (resolved_peering_ip w config); [| now elim Hr].
    apply Z.eqb_neq in Ha. rewrite Ha in P. now destruct P.
  - intros (Hd & Hm & Hn & Hr) Ha Hs. apply Hexit; try assumption.
    destruct (boot_nodes w config); [| discriminate].
    destruct (resolved_peering_ip w config); [| now elim Hr].
    apply Z.eqb_neq in Hs. rewrite Ha, Hs in P. now destruct P.
  - intros (Hd & Hm & Hn & Hr) Ha Hs Hp. apply Hexit; try assumption.
    destruct (boot_nodes w config); [| discriminate].
    destruct (resolved_peering_ip w config); [| now elim Hr].
    apply Z.eqb_neq in Hp. rewrite Ha, Hs, Hp in P. now destruct P.
  - intros Hd Hm Ho H0.
    pose proof (run_server_after_setup w config version fuel Hd Hm) as R.
    cbv zeta in R. destruct R as (_ & -> & _). now rewrite Ho, H0.
Qed.

End Startup.

(* ------------------------------------------------------------------ *)
(** ** Concrete runs *)

Lemma peering_thread_teardown_order_witness :
  teardown (trace_of (raft_thread_body (lib := Reference.lib)
                        Demo.single_node Demo.single_node_config
                        Demo.state_dir 5))
  = [ReplicationState_shutdown; raft_server_Stop; raft_server_Join;
     BatchedIndexer_stop; thread_join batch_indexing_thread;
     ThreadPool_shutdown server_thread_pool;
     ThreadPool_shutdown app_thread_pool; HttpServer_stop].
Proof.
  apply (peering_thread_teardown_order (lib := Reference.lib)
           Demo.single_node Demo.single_node_config Demo.state_dir 5).
  reflexivity.
Defined.

(** C1 as the specification words it does not hold: in a single-node
    run ended by an interrupt, the replication state is shut down and
    the peering listener stopped and joined before the batch indexer is
    stopped, not after the API server has been stopped. *)
Lemma specified_teardown_order_not_followed :
  let r := raft_thread_body (lib := Reference.lib) Demo.single_node
             Demo.single_node_config Demo.state_dir 5 in
  outcome_of r = Done tt
  /\ teardown (trace_of r)
     = [ReplicationState_shutdown; raft_server_Stop; raft_server_Join;
        BatchedIndexer_stop; thread_join batch_indexing_thread;
        ThreadPool_shutdown server_thread_pool;
        ThreadPool_shutdown app_thread_pool; HttpServer_stop]
  /\ teardown (trace_of r) <> specified_teardown_order.
Proof.
  split; [reflexivity |]. split; [reflexivity |].
  vm_compute. discriminate.
Qed.

Lemma empty_nodes_file_aborts_on_peering_thread_witness :
  status (run_server (lib := Reference.lib) Demo.empty_nodes_file
            Demo.cluster_config "0.21.0" 5) = Exit (-1).
Proof.
  apply (empty_nodes_file_aborts_on_peering_thread (lib := Reference.lib)
           Demo.empty_nodes_file Demo.cluster_config "0.21.0" 5);
    [reflexivity | reflexivity | discriminate | reflexivity | reflexivity].
Defined.

(** C6 as the specification words it does not hold: with an empty
    node-list file the process does abort, but both worker pools and the
    peering thread have been created on the calling thread, and the
    indexing thread on the peering thread, before the abort. *)
Lemma threads_exist_before_the_abort :
  let run := run_server (lib := Reference.lib) Demo.empty_nodes_file
               Demo.cluster_config "0.21.0" 5 in
  boot_nodes Demo.empty_nodes_file Demo.cluster_config
  = Error 500 "File containing nodes configuration is empty."
  /\ status run = Exit (-1)
  /\ filter is_spawn (main_trace run)
     = [ThreadPool_ctor app_thread_pool 4;
        ThreadPool_ctor server_thread_pool 4; thread_ctor raft_thread]
  /\ raft_trace run
     = [thread_ctor batch_indexing_thread;
        LOG ERROR [Str "File containing nodes configuration is empty."]]
  /\ filter is_spawn (main_trace run ++ raft_trace run) <> [].
Proof.
  split; [reflexivity |]. split; [reflexivity |]. split; [reflexivity |].
  split; [reflexivity |]. vm_compute. discriminate.
Qed.

(** C8 (the code departs from it).  With the peering address
    [not-an-ip], which [str2ip] rejects, [start_raft_server] logs the
    error and returns -1; the peering thread drops that value, tears
    down the indexer, the pools and the API server, and [run_server]
    returns the status of the API loop, here 0, after having entered
    the API loop. *)
Theorem unparsable_peering_address_is_not_fatal :
  let config := Demo.config "" "not-an-ip" in
  let run := run_server (lib := Reference.lib) Demo.single_node config
               "0.21.0" 5 in
  butil_str2ip (Lib := Reference.lib) "not-an-ip" = None
  /\ outcome_of (start_raft_server (lib := Reference.lib) Demo.single_node
                   Demo.state_dir "" "not-an-ip" 8107 "" 8108 3600 5)
     = Done (-1)
  /\ status run = Done 0
  /\ In HttpServer_run (main_trace run)
  /\ In (LOG ERROR [Str "Failed to parse peering address `";
                    Str "not-an-ip"; Str "`"]) (raft_trace run)
  /\ teardown (raft_trace run)
     = [BatchedIndexer_stop; thread_join batch_indexing_thread;
        ThreadPool_shutdown server_thread_pool;
        ThreadPool_shutdown app_thread_pool; HttpServer_stop].
Proof.
  split; [reflexivity |]. split; [reflexivity |]. split; [reflexivity |].
  split; [vm_compute; find_event |].
  split; [vm_compute; find_event | reflexivity].
Qed.

Lemma exit_status_mapping_witness :
  status (run_server (lib := Reference.lib) Demo.single_node
            (Demo.relocate Demo.single_node_config "/nonexistent" "" "")
            "0.21.0" 5) = Done 1
  /\ status (run_server (lib := Reference.lib) Demo.single_node
               (Demo.relocate Demo.single_node_config Demo.data_dir
                  "http://10.0.0.1:8108" "")
               "0.21.0" 5) = Done 1
  /\ outcome_of (init_root_logger (Demo.fs None)
                   (Demo.relocate Demo.single_node_config Demo.data_dir ""
                      "/var/log/typesense")) = Done 1
  /\ status (run_server (lib := Reference.lib) Demo.add_service_fails
               Demo.single_node_config "0.21.0" 5) = Exit (-1)
  /\ status (run_server (lib := Reference.lib) Demo.Start_fails
               Demo.single_node_config "0.21.0" 5) = Exit (-1)
  /\ status (run_server (lib := Reference.lib) Demo.replication_start_fails
               Demo.single_node_config "0.21.0" 5) = Exit (-1)
  /\ status (run_server (lib := Reference.lib) Demo.api_loop_exits
               Demo.single_node_config "0.21.0" 5) = Done 0.
Proof.
  assert (forall w, boot_fs w = Demo.fs None ->
            directory_exists (boot_fs w)
              (get_data_dir Demo.single_node_config) = true
            /\ get_master Demo.single_node_config = ""
            /\ ok (boot_nodes w Demo.single_node_config) = true
            /\ resolved_peering_ip (lib := Reference.lib) w
                 Demo.single_node_config <> None) as Hstarted.
  { intros w E. unfold boot_nodes. rewrite E.
    repeat split; discriminate. }
  split; [| split; [| split; [| split; [| split; [| split]]]]].
  - destruct (exit_status_mapping (lib := Reference.lib) Demo.single_node
                (Demo.relocate Demo.single_node_config "/nonexistent" "" "")
                "0.21.0" 5) as (H & _).
    apply H. reflexivity.
  - destruct (exit_status_mapping (lib := Reference.lib) Demo.single_node
                (Demo.relocate Demo.single_node_config Demo.data_dir
                   "http://10.0.0.1:8108" "")
                "0.21.0" 5) as (_ & H & _).
    apply H; [reflexivity | discriminate].
  - destruct (exit_status_mapping (lib := Reference.lib) Demo.single_node
                (Demo.relocate Demo.single_node_config Demo.data_dir ""
                   "/var/log/typesense")
                "0.21.0" 5) as (_ & _ & H & _).
    apply H; [discriminate | reflexivity].
  - destruct (exit_status_mapping (lib := Reference.lib)
                Demo.add_service_fails Demo.single_node_config "0.21.0" 5)
      as (_ & _ & _ & H & _).
    apply H; [now apply Hstarted | discriminate].
  - destruct (exit_status_mapping (lib := Reference.lib)
                Demo.Start_fails Demo.single_node_config "0.21.0" 5)
      as (_ & _ & _ & _ & H & _).
    apply H; [now apply Hstarted | reflexivity | discriminate].
  - destruct (exit_status_mapping (lib := Reference.lib)
                Demo.replication_start_fails Demo.single_node_config
                "0.21.0" 5)
      as (_ & _ & _ & _ & _ & H & _).
    apply H; [now apply Hstarted | reflexivity | reflexivity | discriminate].
  - destruct (exit_status_mapping (lib := Reference.lib)
                Demo.api_loop_exits Demo.single_node_config "0.21.0" 5)
      as (_ & _ & _ & _ & _ & _ & H).
    apply H; reflexivity.
Defined.

(* ================================================================== *)
(** * Further properties *)

(** ** Private ranges and the subnet test *)

Lemma ipv4_octets (a b c d : Z) :
  octet a -> octet b -> octet c -> octet d ->
  uint8 (Z.shiftr (ipv4 a b c d) 24) = a
  /\ uint8 (Z.land (Z.shiftr (ipv4 a b c d) 16) 255) = b.
Proof.
  unfold octet, ipv4, uint8. intros Ha Hb Hc Hd.
  rewrite !Z.shiftr_div_pow2 by lia.
  change 255 with (Z.ones 8). rewrite Z.land_ones by lia.
  change (2 ^ 24) with 16777216. change (2 ^ 16) with 65536.
  change (2 ^ 8) with 256.
  split.
  - replace ((a * 16777216 + b * 65536 + c * 256 + d) / 16777216) with a.
    + apply Z.mod_small. lia.
    + apply Z.div_unique with (b * 65536 + c * 256 + d); lia.
  - replace ((a * 16777216 + b * 65536 + c * 256 + d) / 65536)
      with (a * 256 + b).
    + rewrite Z.mod_mod by lia.
      rewrite Z.add_comm, Z.mod_add by lia. apply Z.mod_small. lia.
    + apply Z.div_unique with (c * 256 + d); lia.
Qed.

(** X1.  On the host-order word of a dotted quad, [is_private_ip]
    accepts exactly 10.x.y.z, 172.16.0.0 - 172.31.255.255 and
    192.168.x.y: the last two octets never matter, and nothing else is
    accepted (loopback, link-local and public addresses are not). *)
Theorem is_private_ip_ranges (a b c d : Z) :
  octet a -> octet b -> octet c -> octet d ->
  is_private_ip (ipv4 a b c d) = true
  <-> a = 10 \/ (a = 172 /\ 16 <= b <= 31) \/ (a = 192 /\ b = 168).
Proof.
  intros Ha Hb Hc Hd.
  destruct (ipv4_octets a b c d Ha Hb Hc Hd) as [E1 E2].
  unfold is_private_ip. rewrite E1, E2.
  destruct (Z.eqb_spec a 10) as [-> | H10]; [intuition |].
  destruct (Z.eqb_spec a 172) as [-> | H172]; cbn [andb].
  - destruct (Z.leb_spec 16 b), (Z.leb_spec b 31); cbn [andb];
      split; intros Hx; try discriminate; lia.
  - destruct (Z.eqb_spec a 192) as [-> | H192]; cbn [andb].
    + destruct (Z.eqb_spec b 168); split; intros Hx; try discriminate; lia.
    + split; intros Hx; [discriminate | lia].
Qed.

Lemma is_private_ip_ranges_witness :
  is_private_ip (ipv4 172 20 0 1) = true
  <-> 172 = 10 \/ (172 = 172 /\ 16 <= 20 <= 31) \/ (172 = 192 /\ 20 = 168).
Proof.
  apply (is_private_ip_ranges 172 20 0 1); unfold octet; lia.
Defined.

(** X2.  For a prefix length between 1 and 32 the mask test of the
    interface scan holds exactly when the two host-order addresses agree
    on their leading [netbits] bits. *)
Theorem subnet_test_compares_prefixes {lib : Lib} (netip netbits a : Z) :
  0 < netbits <= 32 ->
  0 <= ntohl netip < 2 ^ 32 -> 0 <= ntohl a < 2 ^ 32 ->
  subnet_mismatch netip netbits a = false
  <-> ntohl netip / 2 ^ (32 - netbits) = ntohl a / 2 ^ (32 - netbits).
Proof.
  intros Hn Hi Ha. unfold subnet_mismatch.
  rewrite negb_false_iff, Z.eqb_eq, subnet_mask_value by exact Hn.
  rewrite !land_high_mask by lia.
  assert (0 < 2 ^ (32 - netbits)) by (apply Z.pow_pos_nonneg; lia).
  split; [intros H0 | intros ->; reflexivity].
  apply Z.mul_cancel_r in H0; lia.
Qed.

Lemma subnet_test_compares_prefixes_witness :
  subnet_mismatch (lib := Reference.lib) (Reference.inet_addr 10 0 0 0) 8
    (Reference.inet_addr 10 1 2 3) = false
  <-> ntohl (Lib := Reference.lib) (Reference.inet_addr 10 0 0 0) / 2 ^ (32 - 8)
      = ntohl (Lib := Reference.lib) (Reference.inet_addr 10 1 2 3)
        / 2 ^ (32 - 8).
Proof.
  apply (subnet_test_compares_prefixes (lib := Reference.lib)
           (Reference.inet_addr 10 0 0 0) 8 (Reference.inet_addr 10 1 2 3));
    [lia | vm_compute; split; [discriminate | reflexivity]
     | vm_compute; split; [discriminate | reflexivity]].
Defined.

Section Unconstrained.

Context {lib : Lib}.

Lemma scan_unconstrained (netip netbits : Z) (ifap : list ifaddrs) :
  constrained netip netbits = false ->
  scan_interfaces netip netbits ifap = scan_interfaces 0 0 ifap.
Proof.
  unfold constrained. intros Hc.
  induction ifap as [| ifa rest IH]; [reflexivity |].
  cbn [scan_interfaces]. rewrite Hc, IH. reflexivity.
Qed.

(** X3.  A subnet string that does not split into two parts at the
    slash, whose address part does not parse, or whose prefix part is no
    unsigned number is treated as no constraint: the resolver then does
    and returns what it does for the empty string. *)
Theorem malformed_subnet_is_no_constraint (ifap : list ifaddrs)
    (cidr : string) :
  let parts := StringUtils_split cidr "/" in
  List.length parts <> 2%nat
  \/ butil_str2ip (nth 0 parts "") = None
  \/ StringUtils_is_uint32_t (nth 1 parts "") = false ->
  get_internal_ip ifap cidr = get_internal_ip ifap "".
Proof.
  intros parts H.
  assert (constrained (fst (parse_subnet cidr)) (snd (parse_subnet cidr))
          = false) as Hc.
  { unfold parse_subnet. fold parts.
    destruct (empty cidr); [reflexivity |]. cbn [negb].
    destruct (Nat.eqb_spec (List.length parts) 2) as [E | E];
      [| reflexivity].
    destruct (butil_str2ip (nth 0 parts "")) as [addr |]; [| reflexivity].
    destruct (StringUtils_is_uint32_t (nth 1 parts "")).
    - destruct H as [H | [H | H]]; [now elim H | discriminate | discriminate].
    - unfold constrained. cbn [fst snd]. apply andb_false_r. }
  unfold get_internal_ip at 1.
  destruct (parse_subnet cidr) as [netip netbits]. cbn [fst snd] in Hc.
  pose proof Hc as Hc'. unfold constrained in Hc'. rewrite Hc'.
  rewrite (scan_unconstrained _ _ _ Hc). reflexivity.
Qed.

End Unconstrained.

Lemma malformed_subnet_is_no_constraint_witness :
  get_internal_ip (lib := Reference.lib) Demo.two_nics "10.0.0.0"
  = get_internal_ip (lib := Reference.lib) Demo.two_nics "".
Proof.
  apply (malformed_subnet_is_no_constraint (lib := Reference.lib)
           Demo.two_nics "10.0.0.0").
  left. vm_compute. discriminate.
Defined.

(* ------------------------------------------------------------------ *)
(** ** Node list and logger *)

(** X4.  A successful load returns the empty node list exactly for the
    empty path (single-node mode), so a configured path never yields an
    empty list; every error carries code 500 and arises only for a
    configured path. *)
Theorem fetch_nodes_config_single_node (fs : FileSystem) (path : string) :
  (forall nodes, fetch_nodes_config fs path = Ok nodes ->
                 (nodes = "" <-> path = ""))
  /\ (forall code msg, fetch_nodes_config fs path = Error code msg ->
                       code = 500 /\ path <> "").
Proof.
  unfold fetch_nodes_config, fetch_file_contents.
  destruct path as [| c path']; cbn [empty negb].
  - split; [intros nodes [= <-]; tauto | discriminate].
  - destruct (file_exists fs (String c path')); cbn [negb].
    + destruct (read_stream fs (String c path')) as [| x rest];
        cbn [empty].
      * split; [discriminate | intros code msg [= <- _]; split;
                                 [reflexivity | discriminate]].
      * split; [intros nodes [= <-]; split; discriminate | discriminate].
    + split; [discriminate | intros code msg [= <- _]; split;
                               [reflexivity | discriminate]].
Qed.

(** X5.  [init_root_logger] returns 1 exactly when a log directory is
    configured and does not exist, and 0 otherwise; when it returns 1 it
    has changed no logging flag or destination; with no log directory it
    only switches logging to stderr; with an existing one the INFO
    destination is [typesense.log] inside it. *)
Theorem init_root_logger_outcomes (fs : FileSystem) (config : Config) :
  let r := init_root_logger fs config in
  (outcome_of r = Done 1
   <-> get_log_dir config <> ""
       /\ directory_exists fs (get_log_dir config) = false)
  /\ (outcome_of r = Done 0 \/ outcome_of r = Done 1)
  /\ (outcome_of r = Done 1 -> filter is_log_setting (trace_of r) = [])
  /\ (get_log_dir config = "" ->
      filter is_log_setting (trace_of r) = [FLAGS_logtostderr true])
  /\ (get_log_dir config <> "" ->
      directory_exists fs (get_log_dir config) = true ->
      In (SetLogDestination INFO (get_log_dir config ++ "/typesense.log"))
         (trace_of r)).
Proof.
  intros r. subst r. unfold init_root_logger.
  destruct (get_log_dir config) as [| c dir] eqn:E; cbn [empty].
  - run_trace. repeat split; try discriminate; try tauto; auto.
  - destruct (directory_exists fs (String c dir)); run_trace.
    + split; [split; [discriminate | intros [_ H]; discriminate] |].
      split; [now left |]. split; [discriminate |].
      split; [discriminate |]. intros _ _. find_event.
    + split; [split; [intros _; split; [discriminate | reflexivity]
                     | reflexivity] |].
      split; [now right |]. split; [reflexivity |].
      split; [discriminate |]. discriminate.
Qed.


Lemma fetch_nodes_config_single_node_witness :
  Demo.three_nodes = "" <-> Demo.nodes_path = "".
Proof.
  destruct (fetch_nodes_config_single_node (Demo.fs (Some Demo.three_nodes))
              Demo.nodes_path) as [H _].
  apply H. reflexivity.
Defined.

Lemma init_root_logger_outcomes_witness :
  outcome_of (init_root_logger (Demo.fs None)
                (Demo.relocate Demo.single_node_config Demo.data_dir ""
                   "/var/log/typesense")) = Done 1.
Proof.
  destruct (init_root_logger_outcomes (Demo.fs None)
              (Demo.relocate Demo.single_node_config Demo.data_dir ""
                 "/var/log/typesense")) as [H _].
  apply H. split; [discriminate | reflexivity].
Defined.

(* ------------------------------------------------------------------ *)
(** ** The quit flag over a whole history *)

Section Flag.

Variable w : World.

Lemma fold_fire_effective (l : list trigger) :
  forall st : SignalState,
    quit_raft_service st = true
    \/ (forall sig, sigaction st sig = sigaction (initial_signals w) sig) ->
    quit_raft_service (fold_left fire l st) = true
    <-> quit_raft_service st = true
        \/ exists t, In t l /\ effective w t = true.
Proof.
  induction l as [| t l IH]; intros st Hinv; cbn [fold_left].
  - split; [auto | intros [H | (t & [] & _)]; exact H].
  - assert (quit_raft_service (fire st t) = true
            <-> quit_raft_service st = true \/ effective w t = true) as Hstep.
    { destruct Hinv as [Hq | Hs].
      - split; [auto | intros _; now apply fire_keeps_quit].
      - unfold fire. destruct t as [sig |]; cbn [deliver effective].
        + rewrite <- (Hs sig).
          destruct (sigaction st sig); cbn; [tauto |].
          split; [auto | intros [H | H]; [exact H | discriminate]].
        + cbn. tauto. }
    assert (quit_raft_service (fire st t) = true
            \/ (forall sig, sigaction (fire st t) sig
                            = sigaction (initial_signals w) sig))
      as Hinv'.
    { destruct Hinv as [Hq | Hs]; [left; now apply fire_keeps_quit |].
      unfold fire. destruct t as [sig |]; cbn [deliver].
      - destruct (sigaction st sig); [now left | now right].
      - now left. }
    rewrite (IH (fire st t) Hinv'), Hstep.
    split.
    + intros [[H | H] | (t' & Hin & He)]; eauto.
      * right. exists t. split; [now left | exact H].
      * right. exists t'. split; [now right | exact He].
    + intros [H | (t' & [<- | Hin] & He)]; eauto.
Qed.

(** X6.  After line 368 and any history of signals and API-loop exits
    the flag is true exactly when the history holds an effective
    trigger: the API loop returning, or a signal whose disposition at
    line 368 was the handler.  A signal that is ignored by then never
    sets the flag. *)
Theorem quit_flag_reflects_history (l : list trigger) :
  quit_raft_service (fold_left fire l (initial_signals w)) = true
  <-> exists t, In t l /\ effective w t = true.
Proof.
  rewrite (fold_fire_effective l (initial_signals w)) by (now right).
  unfold initial_signals at 1. cbn [store_quit quit_raft_service].
  split; [intros [H | H]; [discriminate | exact H] | now right].
Qed.

End Flag.

(* ------------------------------------------------------------------ *)
(** ** Pool sizes *)

(** X7.  With the thread-pool size left at 0, both pools get eight
    threads per hardware thread, and eight when the hardware reports 0;
    a configured size is taken as it is.  The number is never zero or
    negative for a non-negative setting. *)
Theorem num_threads_bounds (w : World) (config : Config) :
  0 <= hardware_concurrency w < 2 ^ 32 ->
  0 <= get_thread_pool_size config ->
  (get_thread_pool_size config = 0 ->
   num_threads w config = 8 * Z.max 1 (hardware_concurrency w)
   /\ 8 <= num_threads w config)
  /\ (get_thread_pool_size config <> 0 ->
      num_threads w config = get_thread_pool_size config)
  /\ 0 < num_threads w config
  /\ (get_num_collections_parallel_load config = 0 ->
      num_collections_parallel_load w config
      = 4 * Z.max 1 (hardware_concurrency w)).
Proof.
  intros Hh Ht. unfold num_threads, num_collections_parallel_load,
    proc_count, size_t.
  assert (2 ^ 32 * 8 < 2 ^ 64) by reflexivity.
  assert (0 < 2 ^ 32) by reflexivity.
  rewrite !Z.mod_small by lia.
  destruct (Z.eqb_spec (get_thread_pool_size config) 0) as [E | E];
    destruct (Z.eqb_spec (get_num_collections_parallel_load config) 0);
    repeat split; intros; try lia; congruence.
Qed.

Lemma num_threads_bounds_witness :
  num_threads (Scenario.asked_to_quit 2)
    (Demo.relocate (Demo.config "" "") Demo.data_dir "" "") = 4.
Proof.
  destruct (num_threads_bounds (Scenario.asked_to_quit 2)
              (Demo.relocate (Demo.config "" "") Demo.data_dir "" ""))
    as (_ & H & _); [vm_compute; split; [discriminate | reflexivity]
                    | vm_compute; discriminate |].
  apply H. discriminate.
Defined.

(* ------------------------------------------------------------------ *)
(** ** Command-line options *)

Lemma find_unique {A} (key : A -> string) (l : list A) (o : A) :
  NoDup (map key l) -> In o l ->
  find (fun x => String.eqb (key x) (key o)) l = Some o.
Proof.
  induction l as [| x l IH]; intros Hnd Hin; [contradiction |].
  cbn [map] in Hnd. inversion Hnd as [| ? ? Hx Hl]; subst.
  cbn [find]. destruct Hin as [-> | Hin].
  - now rewrite String.eqb_refl.
  - destruct (String.eqb_spec (key x) (key o)) as [E | E]; [| auto].
    exfalso. apply Hx. rewrite E. now apply in_map.
Qed.

(** X8.  The options registered by [init_cmdline_options] on a fresh
    parser have pairwise distinct long names and pairwise distinct short
    flags, so every option is found again under its own name; the
    required ones are exactly [data-dir] and [api-key]; and each
    deprecated alias carries the default of the option that replaces
    it. *)
Theorem init_cmdline_options_table (program : string) :
  let p := init_cmdline_options {| program_name := program; ordered := [] |} in
  NoDup (map opt_name (ordered p))
  /\ NoDup (filter (fun c => negb (Ascii.eqb c NUL))
              (map short_name (ordered p)))
  /\ (forall o, In o (ordered p) -> find_option (opt_name o) p = Some o)
  /\ map opt_name (filter need (ordered p)) = ["data-dir"; "api-key"]
  /\ default_of "listen-address" p = default_of "api-address" p
  /\ default_of "listen-port" p = default_of "api-port" p
  /\ program_name p = "./typesense-server".
Proof.
  intros p.
  assert (NoDup (map opt_name (ordered p))) as Hnd.
  { subst p. cbv -[String.eqb].
    repeat (constructor; [cbn [In]; intuition discriminate |]).
    constructor. }
  split; [exact Hnd |].
  split.
  { subst p. vm_compute.
    repeat (constructor; [cbn [In]; intuition discriminate |]).
    constructor. }
  split; [intros o Ho; now apply find_unique |].
  repeat split.
Qed.

Lemma init_cmdline_options_table_witness :
  option_map need
    (find_option "api-key" (init_cmdline_options Scenario.empty_parser))
  = Some true.
Proof.
  destruct (init_cmdline_options_table "") as (_ & _ & H & _).
  specialize (H {| opt_name := "api-key"; short_name := "a";
                   opt_desc := "API key that allows all operations.";
                   need := true; def := VString "" |}
                (or_intror (or_introl eq_refl))).
  cbn [opt_name] in H. unfold Scenario.empty_parser. now rewrite H.
Defined.


(* ------------------------------------------------------------------ *)
(** ** More on the maintenance loop *)

Section LoopFacts.

Context {lib : Lib}.
Variables (w : World) (peering_endpoint : EndPoint) (api_port : Z)
          (path_to_nodes : string).

(** One pass either sleeps once and advances the counter, or (read due
    and failed) does neither. *)
Lemma loop_body_step (fs : FileSystem) (c : Z) :
  exists tr c1,
    loop_body fs peering_endpoint api_port path_to_nodes c = (tr, Done c1)
    /\ ((c1 = size_t (c + 1) /\ filter is_sleep tr = [sleep 1])
        \/ (c1 = c /\ filter is_sleep tr = [] /\ c mod 10 = 0
            /\ ok (fetch_nodes_config fs path_to_nodes) = false
            /\ forallb is_log tr = true /\ List.length tr = 1%nat)).
Proof.
  unfold loop_body, refresh_membership.
  destruct (Z.eqb_spec (c mod 10) 0) as [H10 | H10].
  - destruct (fetch_nodes_config fs path_to_nodes) as [nodes | code err].
    + destruct (c mod 3 =? 0), (c mod 60 =? 0); run_trace;
        eexists _, _; (split; [reflexivity |]); left; split; reflexivity.
    + run_trace. eexists _, _. split; [reflexivity |]. right.
      repeat split; auto.
  - destruct (c mod 3 =? 0), (c mod 60 =? 0); run_trace;
      eexists _, _; (split; [reflexivity |]); left; split; reflexivity.
Qed.

(** X9.  The tick counter counts the sleeps: when the loop returns, the
    counter has advanced by exactly the number of one-second sleeps the
    loop made (as long as it cannot wrap), so it never decreases and
    never runs ahead of the elapsed passes. *)
Theorem counter_counts_sleeps (fuel : nat) :
  forall (k : nat) (c c' : Z) (tr : list event),
    0 <= c -> c + Z.of_nat fuel < 2 ^ 64 ->
    maintenance_loop w fuel peering_endpoint api_port path_to_nodes k c
    = (tr, Done c') ->
    c' = c + Z.of_nat (List.length (filter is_sleep tr))
    /\ (List.length (filter is_sleep tr) < fuel)%nat.
Proof.
  induction fuel as [| fuel IH]; intros k c c' tr Hc Hb Hrun;
    cbn [maintenance_loop] in Hrun; [discriminate |].
  destruct (loop_condition w k).
  2:{ injection Hrun as <- <-. cbn. split; lia. }
  destruct (loop_body_step (fs_at w k) c) as (t1 & c1 & Hbody & Hcase).
  rewrite (bind_done _ _ t1 c1 Hbody) in Hrun.
  destruct (maintenance_loop w fuel peering_endpoint api_port path_to_nodes
              (S k) c1) as [t2 o2] eqn:Hrest.
  cbn [trace_of outcome_of fst snd] in Hrun.
  injection Hrun as <- ->.
  rewrite filter_app, length_app.
  destruct Hcase as [[-> Hs] | (-> & Hs & _)]; rewrite Hs; cbn [List.length].
  - assert (size_t (c + 1) = c + 1) as E
        by (unfold size_t; apply Z.mod_small; lia).
    rewrite E in Hrest.
    destruct (IH (S k) (c + 1) c' t2 ltac:(lia) ltac:(lia) Hrest) as [-> Hl].
    split; lia.
  - destruct (IH (S k) c c' t2 Hc ltac:(lia) Hrest) as [-> Hl].
    split; lia.
Qed.

(** X10.  While the counter is a multiple of 10 and the read of the
    node list keeps failing, the loop makes no progress: [n] passes in a
    row leave [n] warnings and nothing else, never sleep, and leave the
    counter where it was. *)
Theorem failing_refresh_spins (n : nat) :
  forall (k : nat) (c : Z),
    c mod 10 = 0 ->
    (forall j, (k <= j < k + n)%nat ->
       loop_condition w j = true
       /\ ok (fetch_nodes_config (fs_at w j) path_to_nodes) = false) ->
    loop_condition w (k + n) = false ->
    exists tr,
      maintenance_loop w (S n) peering_endpoint api_port path_to_nodes k c
      = (tr, Done c)
      /\ List.length tr = n
      /\ forallb is_log tr = true
      /\ filter is_sleep tr = [].
Proof.
  induction n as [| n IH]; intros k c H10 Hfail Hstop.
  - rewrite Nat.add_0_r in Hstop. exists []. cbn [maintenance_loop].
    rewrite Hstop. repeat split.
  - destruct (Hfail k ltac:(lia)) as [Hc Herr].
    destruct (fetch_nodes_config (fs_at w k) path_to_nodes)
      as [nodes | code err] eqn:E; [discriminate |].
    destruct (IH (S k) c H10) as (tr & Hrun & Hlen & Hlog & Hsl).
    { intros j Hj. apply Hfail. lia. }
    { now replace (S k + n)%nat with (k + S n)%nat by lia. }
    eexists. cbn [maintenance_loop]. rewrite Hc.
    rewrite (bind_done _ _ _ _
               (loop_body_continue (fs_at w k) peering_endpoint api_port
                  path_to_nodes c code err H10 E)).
    cbn [maintenance_loop] in Hrun. rewrite Hrun.
    cbn [trace_of outcome_of fst snd app List.length forallb filter
         is_log is_sleep andb].
    split; [reflexivity |].
    cbn [List.length forallb filter is_log is_sleep andb].
    split; [now rewrite Hlen |]. split; assumption.
Qed.

(** X11.  Every membership descriptor the loop pushes into the
    replication state is built from the peering endpoint, the API port
    and the content of the node-list file as read in that very pass;
    the content read when the process started is not reused. *)
Theorem refresh_uses_fresh_nodes (fuel : nat) :
  forall (k : nat) (c : Z) (cfg : string),
    In (ReplicationState_refresh_nodes cfg)
       (trace_of (maintenance_loop w fuel peering_endpoint api_port
                    path_to_nodes k c)) ->
    exists (j : nat) (nodes : string),
      (k <= j < k + fuel)%nat
      /\ fetch_nodes_config (fs_at w j) path_to_nodes = Ok nodes
      /\ cfg = to_nodes_config peering_endpoint api_port nodes.
Proof.
  induction fuel as [| fuel IH]; intros k c cfg Hin;
    cbn [maintenance_loop] in Hin; [contradiction |].
  destruct (loop_condition w k); [| contradiction].
  rewrite trace_bind in Hin. apply in_app_or in Hin.
  destruct Hin as [Hin | Hin].
  - exists k. unfold loop_body, refresh_membership in Hin.
    destruct (c mod 10 =? 0).
    + destruct (fetch_nodes_config (fs_at w k) path_to_nodes)
        as [nodes | code err].
      * exists nodes. split; [lia |]. split; [reflexivity |].
        destruct (c mod 3 =? 0), (c mod 60 =? 0); cbn in Hin;
          intuition congruence.
      * cbn in Hin. intuition discriminate.
    + destruct (c mod 3 =? 0), (c mod 60 =? 0); cbn in Hin;
        intuition discriminate.
  - destruct (loop_body_done (fs_at w k) peering_endpoint api_port
                path_to_nodes c) as [c1 Hd].
    rewrite Hd in Hin.
    destruct (IH (S k) c1 cfg Hin) as (j & nodes & Hj & Hf & Hcfg).
    exists j, nodes. split; [lia | auto].
Qed.

End LoopFacts.

Lemma counter_counts_sleeps_witness :
  2 = 0 + Z.of_nat
        (List.length
           (filter is_sleep
              (trace_of (maintenance_loop (lib := Reference.lib)
                           Demo.single_node 5 Demo.peer 8108 "" 0 0)))).
Proof.
  destruct (counter_counts_sleeps (lib := Reference.lib) Demo.single_node
              Demo.peer 8108 "" 5 0 0 2
              (trace_of (maintenance_loop (lib := Reference.lib)
                           Demo.single_node 5 Demo.peer 8108 "" 0 0)))
    as [H _]; [lia | reflexivity | reflexivity | exact H].
Defined.

Lemma failing_refresh_spins_witness :
  exists tr,
    maintenance_loop (lib := Reference.lib) Demo.flaky 4 Demo.peer 8108
      Demo.nodes_path 0 0 = (tr, Done 0)
    /\ List.length tr = 3%nat
    /\ forallb is_log tr = true
    /\ filter is_sleep tr = [].
Proof.
  apply (failing_refresh_spins (lib := Reference.lib) Demo.flaky Demo.peer
           8108 Demo.nodes_path 3 0 0).
  - reflexivity.
  - intros j Hj.
    destruct j as [| [| [| j]]]; [split; reflexivity .. | lia].
  - reflexivity.
Defined.

Lemma refresh_uses_fresh_nodes_witness :
  exists (j : nat) (nodes : string),
    (0 <= j < 0 + 5)%nat
    /\ fetch_nodes_config (fs_at Demo.single_node j) "" = Ok nodes
    /\ "127.0.0.1:8107:8108"
       = to_nodes_config (Lib := Reference.lib) Demo.peer 8108 nodes.
Proof.
  apply (refresh_uses_fresh_nodes (lib := Reference.lib) Demo.single_node
           Demo.peer 8108 "" 5 0 0 "127.0.0.1:8107:8108").
  left. reflexivity.
Defined.


(* ------------------------------------------------------------------ *)
(** ** The calls of each thread *)

Lemma filter_through (p : event -> bool) (l : list event) :
  (forall e, is_call e = false -> p e = false) ->
  filter p l = filter p (filter is_call l).
Proof.
  intros H. induction l as [| e l IH]; [reflexivity |].
  cbn [filter]. destruct (is_call e) eqn:E.
  - cbn [filter]. now rewrite IH.
  - now rewrite (H e E).
Qed.

Lemma log_not_call e : is_log e = true -> is_call e = false.
Proof. unfold is_call. now intros ->. Qed.

Lemma maintenance_not_call e : is_maintenance e = true -> is_call e = false.
Proof. unfold is_call. intros ->. apply andb_false_r. Qed.

Section Calls.

Context {lib : Lib}.
Variables (w : World) (config : Config).

(** The calls of the peering thread, log lines and maintenance work
    left out, on every path through its body. *)
Lemma raft_thread_body_calls (state_dir : string) (fuel : nat) :
  let r := raft_thread_body w config state_dir fuel in
  let worker :=
    [BatchedIndexer_stop; thread_join batch_indexing_thread;
     ThreadPool_shutdown server_thread_pool;
     ThreadPool_shutdown app_thread_pool; HttpServer_stop] in
  match boot_nodes w config with
  | Error _ _ =>
      filter is_call (trace_of r) = [thread_ctor batch_indexing_thread]
      /\ outcome_of r = Exit (-1)
  | Ok nodes =>
      match resolved_peering_ip w config with
      | None =>
          filter is_call (trace_of r)
          = thread_ctor batch_indexing_thread :: worker
          /\ outcome_of r = Done tt
      | Some peering_ip =>
          let e := {| ip := peering_ip; port := get_peering_port config |} in
          let start :=
            ReplicationState_start e (get_api_port config) 5000
              (get_snapshot_interval_seconds config) state_dir nodes in
          if negb (add_service_rc w =? 0) then
            filter is_call (trace_of r)
            = [thread_ctor batch_indexing_thread; braft_add_service e]
            /\ outcome_of r = Exit (-1)
          else if negb (Start_rc w =? 0) then
            filter is_call (trace_of r)
            = [thread_ctor batch_indexing_thread; braft_add_service e;
               raft_server_Start e]
            /\ outcome_of r = Exit (-1)
          else if negb (ReplicationState_start_rc w =? 0) then
            filter is_call (trace_of r)
            = [thread_ctor batch_indexing_thread; braft_add_service e;
               raft_server_Start e; start]
            /\ outcome_of r = Exit (-1)
          else
            match outcome_of
                    (maintenance_loop w fuel e (get_api_port config)
                       (get_nodes config) 0 0) with
            | Done _ =>
                filter is_call (trace_of r)
                = ([thread_ctor batch_indexing_thread; braft_add_service e;
                    raft_server_Start e; start;
                    ReplicationState_shutdown; raft_server_Stop;
                    raft_server_Join] ++ worker)%list
                /\ outcome_of r = Done tt
            | _ =>
                filter is_call (trace_of r)
                = [thread_ctor batch_indexing_thread; braft_add_service e;
                   raft_server_Start e; start]
                /\ outcome_of r = Spin
            end
      end
  end.
Proof.
  intros r worker. subst r worker.
  unfold raft_thread_body, start_raft_server, boot_nodes, resolved_peering_ip.
  rewrite bind_emit.
  destruct (fetch_nodes_config (boot_fs w) (get_nodes config))
    as [nodes | code err] eqn:Hn.
  2:{ destruct (empty (get_nodes config)) eqn:He.
      - unfold fetch_nodes_config in Hn. rewrite He in Hn. discriminate.
      - split; reflexivity. }
  destruct (resolve_peering_ip_eta w (get_peering_address config)
              (get_peering_subnet config)) as (tr_r & conv & Hr & Hlog).
  rewrite Hr. cbn [outcome_of snd].
  pose proof (filter_none is_log is_call tr_r Hlog log_not_call) as Hrt.
  destruct (empty (get_nodes config)); run_trace.
  all: destruct conv as [peering_ip |]; run_trace.
  all: try solve [split; [project_calls; now rewrite Hrt | reflexivity]].
  all: destruct (add_service_rc w =? 0); run_trace;
    try solve [split; [project_calls; now rewrite Hrt | reflexivity]].
  all: destruct (Start_rc w =? 0); run_trace;
    try solve [split; [project_calls; now rewrite Hrt | reflexivity]].
  all: destruct (ReplicationState_start_rc w =? 0); run_trace;
    try solve [split; [project_calls; now rewrite Hrt | reflexivity]].
  all: pose proof (maintenance_loop_shape w
                     {| ip := peering_ip; port := get_peering_port config |}
                     (get_api_port config) (get_nodes config) fuel 0 0)
         as [Hm Hx].
  all: destruct (maintenance_loop w fuel _ _ _ 0%nat 0) as [tr_l [c | s |]];
    run_trace; try solve [now elim (Hx s)].
  all: cbn [trace_of fst] in Hm.
  all: pose proof (filter_none is_maintenance is_call tr_l Hm
                     maintenance_not_call) as Hlt.
  all: split; [project_calls; now rewrite Hrt, Hlt | reflexivity].
Qed.

Variable version : string.

(** The calls of the calling thread up to the start of the peering
    thread. *)
Lemma setup_calls :
  directory_exists (boot_fs w) (get_data_dir config) = true ->
  get_master config = "" ->
  exists pre,
    run_server_setup w config version
    = (pre, Done (inr (get_data_dir config ++ "/state")))
    /\ filter is_call pre
       = ((if using_jemalloc w then [mallctl_background_thread] else [])
          ++ [store_quit_raft_service false;
              ThreadPool_ctor app_thread_pool (num_threads w config);
              ThreadPool_ctor server_thread_pool (num_threads w config);
              Store_ctor store (get_data_dir config ++ "/db");
              Store_ctor meta_store (get_data_dir config ++ "/meta");
              curl_global_init;
              HttpClient_init (get_api_key config);
              HttpServer_ctor (get_api_address config) (get_api_port config)
                (get_ssl_cert config) (get_ssl_cert_key config)
                (uint32 (get_ssl_refresh_interval_seconds config * 1000))
                (get_enable_cors config) (get_cors_domains config);
              HttpServer_set_auth_handler;
              HttpServer_on STREAM_RESPONSE_MESSAGE;
              HttpServer_on REQUEST_PROCEED_MESSAGE;
              HttpServer_on DEFER_PROCESSING_MESSAGE;
              BatchedIndexer_ctor (num_threads w config);
              CollectionManager_init (get_api_key config);
              ReplicationState_ctor
                (negb (empty (get_ssl_cert config))
                 && negb (empty (get_ssl_cert_key config)))
                (num_collections_parallel_load w config)
                (get_num_documents_parallel_load config)])%list.
Proof.
  intros Hd Hm%empty_true. unfold run_server_setup. rewrite Hd, Hm.
  destruct (using_jemalloc w),
    (empty (get_search_only_api_key config)); run_trace;
    (eexists; split; [reflexivity |]); reflexivity.
Qed.

(** The calls of the calling thread over the whole run, by outcome of
    the peering thread. *)
Lemma run_server_calls (fuel : nat) :
  directory_exists (boot_fs w) (get_data_dir config) = true ->
  get_master config = "" ->
  exists pre,
    run_server_setup w config version
    = (pre, Done (inr (get_data_dir config ++ "/state")))
    /\ filter is_call (main_trace (run_server w config version fuel))
       = (filter is_call pre ++ [thread_ctor raft_thread]
          ++ match outcome_of
                     (raft_thread_body w config
                        (get_data_dir config ++ "/state") fuel) with
             | Done _ =>
                 [master_server_routes; HttpServer_run;
                  store_quit_raft_service true; thread_join raft_thread;
                  BatchedIndexer_dtor; curl_global_cleanup; HttpServer_dtor;
                  CollectionManager_dispose]
             | Exit _ => []
             | Spin => [master_server_routes; HttpServer_run]
             end)%list.
Proof.
  intros Hd Hm.
  destruct (setup_calls Hd Hm) as (pre & Hpre & _).
  exists pre. split; [exact Hpre |].
  unfold run_server. rewrite Hpre.
  destruct (raft_thread_body w config (get_data_dir config ++ "/state") fuel)
    as [rt [u | s |]];
    cbn [outcome_of snd main_trace];
    unfold enter_api_loop, leave_api_loop; run_trace;
    rewrite !filter_app; cbn [filter is_call is_log is_maintenance negb andb];
    rewrite <- ?app_assoc; reflexivity.
Qed.

End Calls.


(* ------------------------------------------------------------------ *)
(** ** Bootstrap, abort and completion of a run *)

Lemma call_covers_bootstrap e : is_call e = false -> is_bootstrap e = false.
Proof. destruct e; cbn; congruence. Qed.

Lemma call_covers_teardown e : is_call e = false -> is_teardown e = false.
Proof. destruct e; cbn; congruence. Qed.

Lemma call_covers_thread e : is_call e = false -> is_thread_event e = false.
Proof. destruct e; cbn; congruence. Qed.

Lemma call_covers_disposal e : is_call e = false -> is_disposal e = false.
Proof. destruct e; cbn; congruence. Qed.

Lemma call_covers_construction e :
  is_call e = false -> is_construction e = false.
Proof. destruct e; cbn; congruence. Qed.

Section Runs.

Context {lib : Lib}.
Variables (w : World) (config : Config) (version : string).

(** X12.  The peering service is brought up by three calls in a fixed
    order (add the service, start the listener, start the replication
    state), all on the one endpoint made of the resolved address and the
    peering port; the replication state is given the API port, an
    election timeout of 5000 ms, the snapshot interval, the state
    directory and the node list read at start-up.  A call is made only
    if every earlier one returned 0. *)
Theorem bootstrap_calls_in_order (state_dir : string) (fuel : nat)
    (nodes : string) (peering_ip : Z) :
  boot_nodes w config = Ok nodes ->
  resolved_peering_ip w config = Some peering_ip ->
  let e := {| ip := peering_ip; port := get_peering_port config |} in
  filter is_bootstrap (trace_of (raft_thread_body w config state_dir fuel))
  = braft_add_service e
    :: (if add_service_rc w =? 0 then
          raft_server_Start e
          :: (if Start_rc w =? 0 then
                [ReplicationState_start e (get_api_port config) 5000
                   (get_snapshot_interval_seconds config) state_dir nodes]
              else [])
        else []).
Proof.
  intros Hn Hr e. subst e.
  rewrite (filter_through is_bootstrap _ call_covers_bootstrap).
  pose proof (raft_thread_body_calls w config state_dir fuel) as P.
  cbv zeta in P. rewrite Hn, Hr in P.
  destruct (add_service_rc w =? 0); cbn [negb] in P;
    [| destruct P as [-> _]; reflexivity].
  destruct (Start_rc w =? 0); cbn [negb] in P;
    [| destruct P as [-> _]; reflexivity].
  destruct (ReplicationState_start_rc w =? 0); cbn [negb] in P;
    [| destruct P as [-> _]; reflexivity].
  destruct (outcome_of (maintenance_loop w fuel _ _ _ 0%nat 0));
    destruct P as [-> _]; reflexivity.
Qed.

(** X13.  A run that ends through [exit] ends with status -1 and
    without any teardown: the peering thread has made no teardown call,
    the indexing thread it started is not joined, and the calling thread
    has disposed of nothing. *)
Theorem abort_skips_teardown (fuel : nat) (s : Z) :
  status (run_server w config version fuel) = Exit s ->
  s = -1
  /\ teardown (raft_trace (run_server w config version fuel)) = []
  /\ filter is_thread_event (raft_trace (run_server w config version fuel))
     = [thread_ctor batch_indexing_thread]
  /\ disposal (main_trace (run_server w config version fuel)) = [].
Proof.
  intros Hs.
  destruct (directory_exists (boot_fs w) (get_data_dir config)) eqn:Hd.
  2:{ exfalso. revert Hs. unfold run_server.
      destruct (setup_without_data_dir w config version Hd) as [Ho _].
      destruct (run_server_setup w config version) as [pre o].
      cbn [outcome_of snd] in Ho. subst o. discriminate. }
  destruct (string_dec (get_master config) "") as [Hm | Hm].
  2:{ exfalso. revert Hs. unfold run_server.
      destruct (setup_with_master w config version Hd Hm) as [Ho _].
      destruct (run_server_setup w config version) as [pre o].
      cbn [outcome_of snd] in Ho. subst o. discriminate. }
  pose proof (run_server_after_setup w config version fuel Hd Hm) as R.
  cbv zeta in R. destruct R as (Rt & Rs & _ & _).
  destruct (run_server_calls w config version fuel Hd Hm)
    as (pre & Hpre & Hmain).
  destruct (setup_passes w config version Hd Hm) as (pre' & Hpre' & _ & Hdi).
  rewrite Hpre in Hpre'. injection Hpre' as <-.
  pose proof (raft_thread_body_calls w config
                (get_data_dir config ++ "/state") fuel) as P.
  cbv zeta in P.
  set (r := raft_thread_body w config (get_data_dir config ++ "/state") fuel)
    in *.
  rewrite Rs in Hs. rewrite Rt.
  assert (outcome_of r = Exit s) as Hx by (destruct (outcome_of r); congruence).
  unfold teardown, disposal.
  rewrite (filter_through is_teardown _ call_covers_teardown).
  rewrite (filter_through is_thread_event (trace_of r) call_covers_thread).
  rewrite (filter_through is_disposal _ call_covers_disposal).
  rewrite Hmain, Hx.
  assert (filter is_disposal (filter is_call pre) = []) as Hdc.
  { rewrite <- (filter_through is_disposal _ call_covers_disposal).
    exact Hdi. }
  assert (forall l : list event,
            filter is_call (trace_of r) = l ->
            outcome_of r = Exit (-1) ->
            filter is_teardown l = [] ->
            filter is_thread_event l = [thread_ctor batch_indexing_thread] ->
            s = -1
            /\ filter is_teardown (filter is_call (trace_of r)) = []
            /\ filter is_thread_event (filter is_call (trace_of r))
               = [thread_ctor batch_indexing_thread]
            /\ filter is_disposal
                 (filter is_call pre ++ [thread_ctor raft_thread] ++ [])%list
               = []) as Hgoal.
  { intros l -> Ho H1 H2. rewrite Hx in Ho. injection Ho as ->.
    split; [reflexivity |]. split; [exact H1 |]. split; [exact H2 |].
    rewrite filter_app, Hdc. reflexivity. }
  destruct (boot_nodes w config) as [nodes | code err].
  2:{ destruct P as [Pc Po]. now apply (Hgoal _ Pc Po). }
  destruct (resolved_peering_ip w config) as [peering_ip |].
  2:{ destruct P as [_ Po]. congruence. }
  destruct (negb (add_service_rc w =? 0)).
  { destruct P as [Pc Po]. now apply (Hgoal _ Pc Po). }
  destruct (negb (Start_rc w =? 0)).
  { destruct P as [Pc Po]. now apply (Hgoal _ Pc Po). }
  destruct (negb (ReplicationState_start_rc w =? 0)).
  { destruct P as [Pc Po]. now apply (Hgoal _ Pc Po). }
  destruct (outcome_of (maintenance_loop w fuel _ _ _ 0%nat 0));
    destruct P as [_ Po]; congruence.
Qed.

(** X14.  Whenever the node list cannot be loaded at start-up, for
    either reason, the peering thread logs exactly the error it got and
    the process exits with -1 before any call that would bring the
    peering service up. *)
Theorem boot_nodes_failure_aborts (fuel : nat) (code : Z) (err : string) :
  directory_exists (boot_fs w) (get_data_dir config) = true ->
  get_master config = "" ->
  boot_nodes w config = Error code err ->
  status (run_server w config version fuel) = Exit (-1)
  /\ raft_trace (run_server w config version fuel)
     = [thread_ctor batch_indexing_thread; LOG ERROR [Str err]].
Proof.
  intros Hd Hm He.
  pose proof (run_server_after_setup w config version fuel Hd Hm) as R.
  cbv zeta in R. destruct R as (Rt & Rs & _ & _).
  pose proof (raft_thread_body_paths w config
                (get_data_dir config ++ "/state") fuel) as P.
  cbv zeta in P. rewrite He in P.
  rewrite Rt, Rs, P. split; reflexivity.
Qed.

(** X15.  When the data directory is missing or the master option is
    set, [run_server] returns 1 having logged an error and constructed
    nothing: no pool, store, client, server, indexer, collection
    manager, replication state or thread, and the peering thread never
    exists. *)
Theorem early_return_constructs_nothing (fuel : nat) :
  directory_exists (boot_fs w) (get_data_dir config) = false
  \/ get_master config <> "" ->
  let run := run_server w config version fuel in
  status run = Done 1
  /\ raft_trace run = []
  /\ filter is_construction (main_trace run) = []
  /\ exists msg, In (LOG ERROR msg) (main_trace run).
Proof.
  intros H run. subst run. unfold run_server, run_server_setup.
  destruct (directory_exists (boot_fs w) (get_data_dir config)) eqn:Hd.
  - destruct H as [H | H%empty_false]; [discriminate |]. rewrite H.
    destruct (using_jemalloc w); run_trace;
      cbn [status raft_trace main_trace];
      (repeat split; [eexists; find_event]).
  - destruct (using_jemalloc w); run_trace;
      cbn [status raft_trace main_trace];
      (repeat split; [eexists; find_event]).
Qed.

(** X16.  In every run that gets past the two start-up checks the
    calling thread constructs, in this order and each once: the
    application pool, the request pool, the document store, the meta
    store, the curl state, the HTTP client, the API server, the batch
    indexer, the collection manager, the replication state and last the
    peering thread; both pools and the indexer get the same number of
    threads. *)
Theorem construction_order (fuel : nat) :
  directory_exists (boot_fs w) (get_data_dir config) = true ->
  get_master config = "" ->
  filter is_construction (main_trace (run_server w config version fuel))
  = [ThreadPool_ctor app_thread_pool (num_threads w config);
     ThreadPool_ctor server_thread_pool (num_threads w config);
     Store_ctor store (get_data_dir config ++ "/db");
     Store_ctor meta_store (get_data_dir config ++ "/meta");
     curl_global_init;
     HttpClient_init (get_api_key config);
     HttpServer_ctor (get_api_address config) (get_api_port config)
       (get_ssl_cert config) (get_ssl_cert_key config)
       (uint32 (get_ssl_refresh_interval_seconds config * 1000))
       (get_enable_cors config) (get_cors_domains config);
     BatchedIndexer_ctor (num_threads w config);
     CollectionManager_init (get_api_key config);
     ReplicationState_ctor
       (negb (empty (get_ssl_cert config))
        && negb (empty (get_ssl_cert_key config)))
       (num_collections_parallel_load w config)
       (get_num_documents_parallel_load config);
     thread_ctor raft_thread].
Proof.
  intros Hd Hm.
  destruct (run_server_calls w config version fuel Hd Hm)
    as (pre & Hpre & Hmain).
  destruct (setup_calls w config version Hd Hm) as (pre' & Hpre' & Hcalls).
  rewrite Hpre in Hpre'. injection Hpre' as <-.
  rewrite (filter_through is_construction _ call_covers_construction).
  rewrite Hmain, Hcalls, !filter_app.
  destruct (using_jemalloc w),
    (outcome_of (raft_thread_body w config
                   (get_data_dir config ++ "/state") fuel));
    reflexivity.
Qed.

(** X17.  In a run that returns, every thread that was started is joined
    exactly once, by the thread that started it: the peering thread by
    the calling thread, the indexing thread by the peering thread; and
    the value returned is the one of the API loop. *)
Theorem threads_are_joined (fuel : nat) (rc : Z) :
  directory_exists (boot_fs w) (get_data_dir config) = true ->
  get_master config = "" ->
  status (run_server w config version fuel) = Done rc ->
  rc = HttpServer_run_rc w
  /\ filter is_thread_event (main_trace (run_server w config version fuel))
     = [thread_ctor raft_thread; thread_join raft_thread]
  /\ filter is_thread_event (raft_trace (run_server w config version fuel))
     = [thread_ctor batch_indexing_thread;
        thread_join batch_indexing_thread].
Proof.
  intros Hd Hm Hs.
  pose proof (run_server_after_setup w config version fuel Hd Hm) as R.
  cbv zeta in R. destruct R as (Rt & Rs & _ & _).
  destruct (run_server_calls w config version fuel Hd Hm)
    as (pre & Hpre & Hmain).
  destruct (setup_calls w config version Hd Hm) as (pre' & Hpre' & Hcalls).
  rewrite Hpre in Hpre'. injection Hpre' as <-.
  pose proof (raft_thread_body_calls w config
                (get_data_dir config ++ "/state") fuel) as P.
  cbv zeta in P.
  set (r := raft_thread_body w config (get_data_dir config ++ "/state") fuel)
    in *.
  rewrite Rs in Hs. rewrite Rt.
  rewrite (filter_through is_thread_event (main_trace _) call_covers_thread).
  rewrite (filter_through is_thread_event (trace_of r) call_covers_thread).
  rewrite Hmain, Hcalls.
  assert (exists u, outcome_of r = Done u) as [u Hu]
      by (destruct (outcome_of r); [eauto | discriminate | discriminate]).
  rewrite Hu in *. injection Hs as <-.
  split; [reflexivity |].
  split; [rewrite !filter_app; destruct (using_jemalloc w); reflexivity |].
  destruct (boot_nodes w config) as [nodes | code err].
  2:{ destruct P as [_ Po]. congruence. }
  destruct (resolved_peering_ip w config) as [peering_ip |].
  2:{ destruct P as [-> _]. reflexivity. }
  destruct (negb (add_service_rc w =? 0)).
  { destruct P as [_ Po]. congruence. }
  destruct (negb (Start_rc w =? 0)).
  { destruct P as [_ Po]. congruence. }
  destruct (negb (ReplicationState_start_rc w =? 0)).
  { destruct P as [_ Po]. congruence. }
  destruct (outcome_of (maintenance_loop w fuel _ _ _ 0%nat 0));
    destruct P as [Pc Po]; try congruence.
  rewrite Pc. reflexivity.
Qed.

End Runs.


(* ------------------------------------------------------------------ *)
(** ** When the loop stops and when it does not *)

Section Stopping.

Context {lib : Lib}.
Variables (w : World) (config : Config) (version : string).

Lemma maintenance_loop_spins (fuel : nat) (e : EndPoint) (api_port : Z)
    (path : string) :
  forall (k : nat) (c : Z),
    (forall j, (k <= j < k + fuel)%nat -> loop_condition w j = true) ->
    outcome_of (maintenance_loop w fuel e api_port path k c) = Spin.
Proof.
  induction fuel as [| fuel IH]; intros k c Hrun; [reflexivity |].
  cbn [maintenance_loop]. rewrite (Hrun k) by lia.
  rewrite outcome_bind.
  destruct (loop_body_done (fs_at w k) e api_port path c) as [c1 ->].
  apply IH. intros j Hj. apply Hrun. lia.
Qed.

(** X18.  As long as neither brpc asks to quit nor the flag is set, the
    process keeps running: once the peering service is up, a run
    followed for [fuel] evaluations of the loop condition, all of them
    true, is still in its loop, the peering thread has made no teardown
    call and the calling thread has disposed of nothing. *)
Theorem no_shutdown_unless_asked (fuel : nat) :
  directory_exists (boot_fs w) (get_data_dir config) = true ->
  get_master config = "" ->
  ok (boot_nodes w config) = true ->
  resolved_peering_ip w config <> None ->
  add_service_rc w = 0 -> Start_rc w = 0 ->
  ReplicationState_start_rc w = 0 ->
  (forall k, (k < fuel)%nat ->
     IsAskedToQuit w k = false /\ quit_raft_service_load w k = false) ->
  let run := run_server w config version fuel in
  status run = Spin
  /\ teardown (raft_trace run) = []
  /\ disposal (main_trace run) = [].
Proof.
  intros Hd Hm Hn Hr Ha Hs Hp Hrun run. subst run.
  pose proof (run_server_after_setup w config version fuel Hd Hm) as R.
  cbv zeta in R. destruct R as (Rt & Rs & _ & _).
  destruct (run_server_calls w config version fuel Hd Hm)
    as (pre & Hpre & Hmain).
  destruct (setup_passes w config version Hd Hm) as (pre' & Hpre' & _ & Hdi).
  rewrite Hpre in Hpre'. injection Hpre' as <-.
  pose proof (raft_thread_body_calls w config
                (get_data_dir config ++ "/state") fuel) as P.
  cbv zeta in P.
  destruct (boot_nodes w config) as [nodes | code err]; [| discriminate].
  destruct (resolved_peering_ip w config) as [peering_ip |];
    [| now elim Hr].
  rewrite Ha, Hs, Hp in P. cbn [Z.eqb negb] in P.
  rewrite maintenance_loop_spins in P.
  2:{ intros j Hj. unfold loop_condition.
      destruct (Hrun j ltac:(lia)) as [-> ->]. reflexivity. }
  destruct P as [Pc Po].
  unfold teardown, disposal.
  rewrite (filter_through is_teardown _ call_covers_teardown).
  rewrite (filter_through is_disposal _ call_covers_disposal).
  rewrite Rs, Rt, Hmain, Po, Pc.
  split; [reflexivity |]. split; [reflexivity |].
  unfold disposal in Hdi.
  rewrite filter_app, <- (filter_through is_disposal _ call_covers_disposal),
    Hdi.
  reflexivity.
Qed.

(** A run whose loop condition is false at evaluation [k] once the
    peering service is up. *)
Lemma run_completes (k : nat) :
  directory_exists (boot_fs w) (get_data_dir config) = true ->
  get_master config = "" ->
  ok (boot_nodes w config) = true ->
  resolved_peering_ip w config <> None ->
  add_service_rc w = 0 -> Start_rc w = 0 ->
  ReplicationState_start_rc w = 0 ->
  loop_condition w k = false ->
  exists run,
    (forall fuel, (k < fuel)%nat -> run_server w config version fuel = run)
    /\ status run = Done (HttpServer_run_rc w)
    /\ teardown (raft_trace run)
       = [ReplicationState_shutdown; raft_server_Stop; raft_server_Join;
          BatchedIndexer_stop; thread_join batch_indexing_thread;
          ThreadPool_shutdown server_thread_pool;
          ThreadPool_shutdown app_thread_pool; HttpServer_stop].
Proof.
  intros Hd Hm Hn Hr Ha Hs Hp Hq.
  set (sd := get_data_dir config ++ "/state").
  assert (forall fuel, (k < fuel)%nat ->
            raft_thread_body w config sd fuel
            = raft_thread_body w config sd (S k)) as Hfuel.
  { intros fuel Hf. apply raft_thread_body_fuel. intros peering_ip _.
    destruct (maintenance_loop_exits w
                {| ip := peering_ip; port := get_peering_port config |}
                (get_api_port config) (get_nodes config) k 0%nat 0 Hq)
      as (tr & c & Hl).
    rewrite (Hl fuel Hf), (Hl (S k)) by lia. reflexivity. }
  exists (run_server w config version (S k)).
  split.
  { intros fuel Hf. unfold run_server.
    destruct (setup_passes w config version Hd Hm) as (pre & -> & _).
    fold sd. now rewrite (Hfuel fuel Hf). }
  pose proof (run_server_after_setup w config version (S k) Hd Hm) as R.
  cbv zeta in R. destruct R as (Rt & Rs & _ & _). fold sd in Rt, Rs.
  pose proof (raft_thread_body_paths w config sd (S k)) as P.
  cbv zeta in P.
  destruct (boot_nodes w config) as [nodes | code err]; [| discriminate].
  destruct (resolved_peering_ip w config) as [peering_ip |];
    [| now elim Hr].
  rewrite Ha, Hs, Hp in P. cbn [Z.eqb negb] in P.
  destruct (maintenance_loop_exits w
              {| ip := peering_ip; port := get_peering_port config |}
              (get_api_port config) (get_nodes config) k 0%nat 0 Hq)
    as (tr & c & Hl).
  rewrite (Hl (S k)) in P by lia. cbn [outcome_of snd] in P.
  destruct P as [Po Pt].
  rewrite Po in Rs. rewrite Rt, Rs. split; [reflexivity | exact Pt].
Qed.

(** X19.  A request to quit from brpc ends the maintenance loop just as
    the flag does, even when no signal arrived and the API loop is still
    running: if brpc asks at evaluation [k], the loop needs no
    evaluation beyond [k], the peering thread makes its full teardown,
    and the process returns the status of the API loop. *)
Theorem brpc_quit_request_ends_the_loop (k : nat) :
  directory_exists (boot_fs w) (get_data_dir config) = true ->
  get_master config = "" ->
  ok (boot_nodes w config) = true ->
  resolved_peering_ip w config <> None ->
  add_service_rc w = 0 -> Start_rc w = 0 ->
  ReplicationState_start_rc w = 0 ->
  IsAskedToQuit w k = true ->
  exists run,
    (forall fuel, (k < fuel)%nat -> run_server w config version fuel = run)
    /\ status run = Done (HttpServer_run_rc w)
    /\ teardown (raft_trace run)
       = [ReplicationState_shutdown; raft_server_Stop; raft_server_Join;
          BatchedIndexer_stop; thread_join batch_indexing_thread;
          ThreadPool_shutdown server_thread_pool;
          ThreadPool_shutdown app_thread_pool; HttpServer_stop].
Proof.
  intros Hd Hm Hn Hr Ha Hs Hp Hq.
  apply run_completes; try assumption.
  unfold loop_condition. now rewrite Hq.
Qed.

(** X20.  When the peering address cannot be resolved, no call that
    would bring the peering service up is made, yet the run is not
    aborted: the peering thread tears down the indexer, the pools and
    the API server, the calling thread has entered the API loop, and
    [run_server] returns the status of that loop. *)
Theorem unresolved_address_skips_peering (fuel : nat) :
  directory_exists (boot_fs w) (get_data_dir config) = true ->
  get_master config = "" ->
  ok (boot_nodes w config) = true ->
  resolved_peering_ip w config = None ->
  let run := run_server w config version fuel in
  status run = Done (HttpServer_run_rc w)
  /\ filter is_call (raft_trace run)
     = [thread_ctor batch_indexing_thread;
        BatchedIndexer_stop; thread_join batch_indexing_thread;
        ThreadPool_shutdown server_thread_pool;
        ThreadPool_shutdown app_thread_pool; HttpServer_stop]
  /\ In (LOG ERROR [Str "Failed to parse peering address `";
                    Str (get_peering_address config); Str "`"])
        (raft_trace run)
  /\ In HttpServer_run (main_trace run).
Proof.
  intros Hd Hm Hn Hr run. subst run.
  pose proof (run_server_after_setup w config version fuel Hd Hm) as R.
  cbv zeta in R. destruct R as (Rt & Rs & _ & Rd).
  pose proof (raft_thread_body_calls w config
                (get_data_dir config ++ "/state") fuel) as P.
  pose proof (raft_thread_body_paths w config
                (get_data_dir config ++ "/state") fuel) as Q.
  cbv zeta in P, Q.
  destruct (boot_nodes w config) as [nodes | code err]; [| discriminate].
  rewrite Hr in P, Q. destruct P as [Pc Po]. destruct Q as (_ & _ & Qin).
  rewrite Rs, Rt, Po. split; [reflexivity |]. split; [exact Pc |].
  split; [exact Qin |]. now apply (Rd tt).
Qed.

End Stopping.

(* ------------------------------------------------------------------ *)
(** ** What the resolved address depends on *)

Section Address.

Context {lib : Lib}.

Lemma maintenance_loop_interfaces (w : World) (ifap : list ifaddrs)
    (fuel : nat) (e : EndPoint) (api_port : Z) (path : string) :
  forall (k : nat) (c : Z),
    maintenance_loop (with_interfaces w ifap) fuel e api_port path k c
    = maintenance_loop w fuel e api_port path k c.
Proof.
  induction fuel as [| fuel IH]; intros k c; [reflexivity |].
  cbn [maintenance_loop].
  change (loop_condition (with_interfaces w ifap) k)
    with (loop_condition w k).
  change (fs_at (with_interfaces w ifap) k) with (fs_at w k).
  destruct (loop_condition w k); [| reflexivity].
  destruct (loop_body (fs_at w k) e api_port path c) as [t [c1 | s |]];
    cbn [bind]; [| reflexivity | reflexivity].
  now rewrite IH.
Qed.

(** X21.  An explicit peering address takes precedence: with a
    non-empty address the whole run is the same whatever the local
    interfaces and whatever the subnet setting, which are then never
    looked at. *)
Theorem explicit_address_ignores_interfaces (w : World) (config : Config)
    (version : string) (fuel : nat) (ifap : list ifaddrs)
    (subnet : string) :
  get_peering_address config <> "" ->
  run_server (with_interfaces w ifap)
    (with_peering config (get_peering_address config) subnet) version fuel
  = run_server w config version fuel.
Proof.
  intros Ha%empty_false.
  unfold run_server.
  change (run_server_setup (with_interfaces w ifap)
            (with_peering config (get_peering_address config) subnet) version)
    with (run_server_setup w config version).
  destruct (run_server_setup w config version) as [pre [[rc | sd] | s |]];
    try reflexivity.
  assert (raft_thread_body (with_interfaces w ifap)
            (with_peering config (get_peering_address config) subnet) sd fuel
          = raft_thread_body w config sd fuel) as ->; [| reflexivity].
  unfold raft_thread_body, start_raft_server, resolve_peering_ip.
  cbn [get_nodes get_peering_address get_peering_port get_peering_subnet
       get_api_port get_snapshot_interval_seconds with_peering
       boot_fs add_service_rc Start_rc ReplicationState_start_rc
       with_interfaces].
  rewrite Ha. cbn [negb].
  destruct (fetch_nodes_config (boot_fs w) (get_nodes config));
    [| reflexivity].
  destruct (butil_str2ip (get_peering_address config)) as [peering_ip |];
    [| reflexivity].
  destruct (empty (get_nodes config)); run_trace.
  all: destruct (add_service_rc w =? 0); run_trace; [| reflexivity].
  all: destruct (Start_rc w =? 0); run_trace; [| reflexivity].
  all: destruct (ReplicationState_start_rc w =? 0); run_trace;
         [| reflexivity].
  all: now rewrite maintenance_loop_interfaces.
Qed.

(** X22.  Without an explicit address the conversion cannot fail, as
    long as [str2ip] reads back what [inet_ntoa] prints for the private
    addresses of the interfaces and reads the loopback literal: the
    address resolved is then the first eligible private address, or the
    loopback address, and the parse-failure path is never taken. *)
Theorem detected_address_always_parses (w : World) (config : Config)
    (loopback : Z) :
  get_peering_address config = "" ->
  butil_str2ip "127.0.0.1" = Some loopback ->
  (forall a, In a (private_addrs (getifaddrs w)) ->
             butil_str2ip (inet_ntoa a) = Some a) ->
  let '(netip, netbits) := parse_subnet (get_peering_subnet config) in
  resolved_peering_ip w config
  = Some (match eligible netip netbits (getifaddrs w) with
          | a :: _ => a
          | [] => loopback
          end).
Proof.
  intros Ha Hl Hrt.
  destruct (parse_subnet (get_peering_subnet config)) as [netip netbits] eqn:E.
  unfold resolved_peering_ip, resolve_peering_ip. rewrite Ha. cbn [empty negb].
  rewrite outcome_bind,
    (get_internal_ip_outcome (getifaddrs w) _ netip netbits E).
  cbn [ret outcome_of snd].
  destruct (eligible netip netbits (getifaddrs w)) as [| a rest] eqn:El;
    [exact Hl |].
  apply Hrt.
  assert (In a (eligible netip netbits (getifaddrs w))) as Hin
      by (rewrite El; now left).
  now apply eligible_incl in Hin.
Qed.

End Address.

(* ------------------------------------------------------------------ *)
(** ** The deprecated search-only key *)

Section SearchOnlyKey.

Context {lib : Lib}.
Variables (w : World) (config : Config) (version key : string).

Lemma setup_search_only_key :
  outcome_of (run_server_setup w (with_search_only_api_key config key) version)
  = outcome_of (run_server_setup w config version)
  /\ filter is_call
       (trace_of (run_server_setup w (with_search_only_api_key config key)
                    version))
     = filter is_call (trace_of (run_server_setup w config version)).
Proof.
  unfold run_server_setup.
  change (num_threads w (with_search_only_api_key config key))
    with (num_threads w config).
  change (num_collections_parallel_load w
            (with_search_only_api_key config key))
    with (num_collections_parallel_load w config).
  cbn [get_data_dir get_master get_search_only_api_key get_api_key
       get_api_address get_api_port get_ssl_cert get_ssl_cert_key
       get_ssl_refresh_interval_seconds get_enable_cors get_cors_domains
       get_num_documents_parallel_load with_search_only_api_key].
  destruct (directory_exists (boot_fs w) (get_data_dir config)),
    (empty (get_master config)), (using_jemalloc w), (empty key),
    (empty (get_search_only_api_key config));
    run_trace; cbn [filter is_call is_log is_maintenance negb andb];
    split; reflexivity.
Qed.

(** X23.  The deprecated search-only API key is not fatal and changes
    nothing but the log: with any value of it the run has the same
    status, the same events on the peering thread and the same calls on
    the calling thread. *)
Theorem search_only_key_only_warns (fuel : nat) :
  let run := run_server w config version fuel in
  let run' := run_server w (with_search_only_api_key config key) version fuel in
  status run' = status run
  /\ raft_trace run' = raft_trace run
  /\ filter is_call (main_trace run') = filter is_call (main_trace run).
Proof.
  intros run run'. subst run run'. unfold run_server.
  destruct setup_search_only_key as [Ho Ht].
  destruct (run_server_setup w (with_search_only_api_key config key) version)
    as [pre' o'].
  destruct (run_server_setup w config version) as [pre o].
  cbn [outcome_of trace_of fst snd] in Ho, Ht. subst o'.
  destruct o as [[rc | sd] | s |];
    cbn [status raft_trace main_trace]; try (repeat split; exact Ht).
  change (raft_thread_body w (with_search_only_api_key config key) sd fuel)
    with (raft_thread_body w config sd fuel).
  destruct (raft_thread_body w config sd fuel) as [rt [u | s |]];
    cbn [status raft_trace main_trace];
    (split; [reflexivity |]); (split; [reflexivity |]);
    rewrite !filter_app, Ht; reflexivity.
Qed.

End SearchOnlyKey.


(* ------------------------------------------------------------------ *)
(** ** The flag from line 368 on, and before it *)


Section Lifecycle.

Context {lib : Lib}.
Variables (w : World) (config : Config) (version : string).

(** A run whose loop condition holds at every evaluation it is followed
    for is still in its loop. *)
Lemma run_status_spin (fuel : nat) :
  directory_exists (boot_fs w) (get_data_dir config) = true ->
  get_master config = "" ->
  ok (boot_nodes w config) = true ->
  resolved_peering_ip w config <> None ->
  add_service_rc w = 0 -> Start_rc w = 0 ->
  ReplicationState_start_rc w = 0 ->
  (forall j, (j < fuel)%nat -> loop_condition w j = true) ->
  status (run_server w config version fuel) = Spin
  /\ teardown (raft_trace (run_server w config version fuel)) = [].
Proof.
  intros Hd Hm Hn Hr Ha Hs Hp Hrun.
  pose proof (run_server_after_setup w config version fuel Hd Hm) as R.
  cbv zeta in R. destruct R as (Rt & Rs & _ & _).
  pose proof (raft_thread_body_calls w config
                (get_data_dir config ++ "/state") fuel) as P.
  cbv zeta in P.
  destruct (boot_nodes w config) as [nodes | code err]; [| discriminate].
  destruct (resolved_peering_ip w config) as [peering_ip |];
    [| now elim Hr].
  rewrite Ha, Hs, Hp in P. cbn [Z.eqb negb] in P.
  rewrite maintenance_loop_spins in P
    by (intros j Hj; apply Hrun; lia).
  destruct P as [Pc Po].
  unfold teardown.
  rewrite (filter_through is_teardown _ call_covers_teardown).
  rewrite Rs, Rt, Po, Pc. split; reflexivity.
Qed.

(** X24.  From line 368 on the loop follows the flag exactly.  With
    brpc silent, let [k] be the first evaluation of the loop condition
    at which the flag is true.  Then a run followed for [k] evaluations
    or fewer is still in its loop and has made no teardown call; for
    every longer observation the run is one and the same: the loop has
    left at evaluation [k], the peering thread and the calling thread
    have each made their teardown calls once, and the process returns
    the status of the API loop.  The flag stays true at every later
    evaluation. *)
Theorem quit_flag_ends_the_loop_exactly (k : nat) :
  directory_exists (boot_fs w) (get_data_dir config) = true ->
  get_master config = "" ->
  ok (boot_nodes w config) = true ->
  resolved_peering_ip w config <> None ->
  add_service_rc w = 0 -> Start_rc w = 0 ->
  ReplicationState_start_rc w = 0 ->
  (forall j, (j <= k)%nat -> IsAskedToQuit w j = false) ->
  (forall j, (j < k)%nat -> quit_raft_service_load w j = false) ->
  quit_raft_service_load w k = true ->
  (forall fuel, (fuel <= k)%nat ->
     status (run_server w config version fuel) = Spin
     /\ teardown (raft_trace (run_server w config version fuel)) = [])
  /\ (exists run,
        (forall fuel, (k < fuel)%nat ->
           run_server w config version fuel = run)
        /\ status run = Done (HttpServer_run_rc w)
        /\ teardown (raft_trace run)
           = [ReplicationState_shutdown; raft_server_Stop; raft_server_Join;
              BatchedIndexer_stop; thread_join batch_indexing_thread;
              ThreadPool_shutdown server_thread_pool;
              ThreadPool_shutdown app_thread_pool; HttpServer_stop]
        /\ disposal (main_trace run)
           = [thread_join raft_thread; BatchedIndexer_dtor;
              curl_global_cleanup; HttpServer_dtor;
              CollectionManager_dispose])
  /\ (forall j, (k <= j)%nat -> quit_raft_service_load w j = true).
Proof.
  intros Hd Hm Hn Hr Ha Hs Hp Hb Hf Hq.
  split; [| split].
  - intros fuel Hfuel. apply run_status_spin; try assumption.
    intros j Hj. unfold loop_condition.
    rewrite (Hb j) by lia. rewrite (Hf j) by lia. reflexivity.
  - destruct (run_completes w config version k Hd Hm Hn Hr Ha Hs Hp
                (loop_condition_quit w k Hq)) as (run & Hrun & Hst & Ht).
    exists run. split; [exact Hrun |]. split; [exact Hst |].
    split; [exact Ht |].
    rewrite <- (Hrun (S k)) in * by lia.
    pose proof (run_server_after_setup w config version (S k) Hd Hm) as R.
    cbv zeta in R. destruct R as (_ & Rs & _ & Rd).
    rewrite Hst in Rs.
    destruct (outcome_of (raft_thread_body w config
                            (get_data_dir config ++ "/state") (S k)))
      as [[] | s |]; [| discriminate | discriminate].
    now apply (Rd tt).
  - intros j Hj. now apply (quit_load_mono w k j).
Qed.

End Lifecycle.

(** X25.  The handler serves a signal number once: the first delivery
    logs, stores [true] and sets that signal to be ignored, leaving
    every other signal as it was; a further delivery of the same signal
    causes no event and changes nothing. *)
Theorem interrupt_is_handled_once (st : SignalState) (sig : Z) :
  sigaction st sig = SIG_HANDLER ->
  let st1 := snd (deliver st (Signal sig)) in
  fst (deliver st (Signal sig))
  = [LOG INFO [Str "Stopping Typesense server..."]]
  /\ quit_raft_service st1 = true
  /\ sigaction st1 sig = SIG_IGN
  /\ (forall s, s <> sig -> sigaction st1 s = sigaction st s)
  /\ deliver st1 (Signal sig) = ([], st1).
Proof.
  intros E st1. subst st1. cbn [deliver]. rewrite E.
  cbn [catch_interrupt fst snd quit_raft_service sigaction].
  rewrite Z.eqb_refl.
  repeat split.
  intros s Hs. apply Z.eqb_neq in Hs. now rewrite Hs.
Qed.

Lemma interrupt_is_handled_once_witness :
  deliver (snd (deliver (process_start Demo.single_node)
                  (Signal Demo.SIGINT)))
    (Signal Demo.SIGINT)
  = ([], snd (deliver (process_start Demo.single_node)
                (Signal Demo.SIGINT))).
Proof.
  apply (interrupt_is_handled_once (process_start Demo.single_node)
           Demo.SIGINT).
  reflexivity.
Defined.

Lemma quit_flag_ends_the_loop_exactly_witness :
  status (run_server (lib := Reference.lib) Demo.interrupted_twice
            Demo.single_node_config "0.21.0" 2) = Spin
  /\ exists run,
       (forall fuel, (2 < fuel)%nat ->
          run_server (lib := Reference.lib) Demo.interrupted_twice
            Demo.single_node_config "0.21.0" fuel = run)
       /\ status run = Done 0.
Proof.
  destruct (quit_flag_ends_the_loop_exactly (lib := Reference.lib)
              Demo.interrupted_twice Demo.single_node_config "0.21.0" 2)
    as (Hspin & (run & Hrun & Hst & _) & _);
    [reflexivity | reflexivity | reflexivity | discriminate
     | reflexivity | reflexivity | reflexivity
     | intros j _; reflexivity
     | intros j Hj; destruct j as [| [| j]]; [reflexivity | reflexivity | lia]
     | reflexivity |].
  split.
  - apply (Hspin 2%nat). lia.
  - exists run. split; [exact Hrun | exact Hst].
Defined.



(* ------------------------------------------------------------------ *)
(** ** Concrete runs for the further properties *)

Lemma bootstrap_calls_in_order_witness :
  filter is_bootstrap
    (trace_of (raft_thread_body (lib := Reference.lib) Demo.Start_fails
                 Demo.single_node_config Demo.state_dir 5))
  = [braft_add_service Demo.peer; raft_server_Start Demo.peer].
Proof.
  apply (bootstrap_calls_in_order (lib := Reference.lib) Demo.Start_fails
           Demo.single_node_config Demo.state_dir 5 ""
           (Reference.inet_addr 127 0 0 1));
    reflexivity.
Defined.

Lemma abort_skips_teardown_witness :
  teardown (raft_trace (run_server (lib := Reference.lib)
                          Demo.replication_start_fails
                          Demo.single_node_config "0.21.0" 5)) = [].
Proof.
  destruct (abort_skips_teardown (lib := Reference.lib)
              Demo.replication_start_fails Demo.single_node_config
              "0.21.0" 5 (-1)) as (_ & H & _);
    [reflexivity | exact H].
Defined.

Lemma boot_nodes_failure_aborts_witness :
  status (run_server (lib := Reference.lib) Scenario.missing_nodes_file
            Demo.cluster_config "0.21.0" 5) = Exit (-1)
  /\ raft_trace (run_server (lib := Reference.lib)
                   Scenario.missing_nodes_file Demo.cluster_config
                   "0.21.0" 5)
     = [thread_ctor batch_indexing_thread;
        LOG ERROR
          [Str "Error reading file containing nodes configuration: File does not exist at: /etc/typesense/nodes"]].
Proof.
  apply (boot_nodes_failure_aborts (lib := Reference.lib)
           Scenario.missing_nodes_file Demo.cluster_config "0.21.0" 5 500
           "Error reading file containing nodes configuration: File does not exist at: /etc/typesense/nodes");
    reflexivity.
Defined.

Lemma early_return_constructs_nothing_witness :
  filter is_construction
    (main_trace (run_server (lib := Reference.lib) Demo.single_node
                   (Demo.relocate Demo.single_node_config Demo.data_dir
                      "http://10.0.0.1:8108" "")
                   "0.21.0" 5)) = [].
Proof.
  destruct (early_return_constructs_nothing (lib := Reference.lib)
              Demo.single_node
              (Demo.relocate Demo.single_node_config Demo.data_dir
                 "http://10.0.0.1:8108" "")
              "0.21.0" 5) as (_ & _ & H & _);
    [right; discriminate | exact H].
Defined.

Lemma construction_order_witness :
  List.length
    (filter is_construction
       (main_trace (run_server (lib := Reference.lib) Demo.add_service_fails
                      Demo.single_node_config "0.21.0" 5))) = 11%nat.
Proof.
  rewrite (construction_order (lib := Reference.lib) Demo.add_service_fails
             Demo.single_node_config "0.21.0" 5);
    reflexivity.
Defined.

Lemma threads_are_joined_witness :
  filter is_thread_event
    (raft_trace (run_server (lib := Reference.lib) Demo.single_node
                   Demo.single_node_config "0.21.0" 5))
  = [thread_ctor batch_indexing_thread; thread_join batch_indexing_thread].
Proof.
  destruct (threads_are_joined (lib := Reference.lib) Demo.single_node
              Demo.single_node_config "0.21.0" 5 0) as (_ & _ & H);
    [reflexivity | reflexivity | reflexivity | exact H].
Defined.

Lemma no_shutdown_unless_asked_witness :
  status (run_server (lib := Reference.lib) Scenario.never_quits
            Demo.single_node_config "0.21.0" 3) = Spin.
Proof.
  destruct (no_shutdown_unless_asked (lib := Reference.lib)
              Scenario.never_quits Demo.single_node_config "0.21.0" 3)
    as (H & _);
    [reflexivity | reflexivity | reflexivity | discriminate
     | reflexivity | reflexivity | reflexivity | | exact H].
  intros k Hk.
  destruct k as [| [| [| k]]]; [split; reflexivity .. | lia].
Defined.

Lemma brpc_quit_request_ends_the_loop_witness :
  exists run,
    (forall fuel, (2 < fuel)%nat ->
       run_server (lib := Reference.lib) (Scenario.asked_to_quit 2)
         Demo.single_node_config "0.21.0" fuel = run)
    /\ status run = Done 0.
Proof.
  destruct (brpc_quit_request_ends_the_loop (lib := Reference.lib)
              (Scenario.asked_to_quit 2) Demo.single_node_config "0.21.0" 2)
    as (run & Hrun & Hst & _);
    [reflexivity | reflexivity | reflexivity | discriminate
     | reflexivity | reflexivity | reflexivity | reflexivity |].
  exists run. split; [exact Hrun | exact Hst].
Defined.

Lemma unresolved_address_skips_peering_witness :
  status (run_server (lib := Reference.lib) Demo.single_node
            (Demo.config "" "256.1.1.1") "0.21.0" 5) = Done 0.
Proof.
  destruct (unresolved_address_skips_peering (lib := Reference.lib)
              Demo.single_node (Demo.config "" "256.1.1.1") "0.21.0" 5)
    as (H & _);
    [reflexivity | reflexivity | reflexivity | reflexivity | exact H].
Defined.

Lemma explicit_address_ignores_interfaces_witness :
  run_server (lib := Reference.lib) (with_interfaces Demo.single_node [])
    (with_peering Demo.single_node_config "127.0.0.1" "10.0.0.0/8")
    "0.21.0" 5
  = run_server (lib := Reference.lib) Demo.single_node
      Demo.single_node_config "0.21.0" 5.
Proof.
  apply (explicit_address_ignores_interfaces (lib := Reference.lib)
           Demo.single_node Demo.single_node_config "0.21.0" 5 []
           "10.0.0.0/8").
  discriminate.
Defined.

Lemma detected_address_always_parses_witness :
  resolved_peering_ip (lib := Reference.lib) Demo.single_node
    Scenario.auto_config
  = Some (Reference.inet_addr 192 168 1 5).
Proof.
  pose proof (detected_address_always_parses (lib := Reference.lib)
                Demo.single_node Scenario.auto_config
                (Reference.inet_addr 127 0 0 1)) as H.
  apply H; [reflexivity | reflexivity |].
  intros a Ha.
  destruct Ha as [<- | [<- | []]]; reflexivity.
Defined.
